(** * ai-shell: provider abstraction and local stream negotiation

    A shallow embedding of [src/helpers/providers.ts],
    [src/helpers/local-stream.ts] and [src/helpers/config.ts].  Network calls ([fetch], the OpenAI
    client) and the JavaScript runtime services the code relies on
    ([JSON.stringify], [Date.now]) are gathered in a [World]; every program
    is a computation that threads the log of calls issued so far and ends
    either with a value or with a thrown JavaScript value. *)

From Stdlib Require Import String Ascii List ZArith QArith Bool Lia.
From Stdlib Require Import DecimalString.
Import ListNotations.
Open Scope string_scope.
Open Scope Z_scope.
Set Warnings "-register-all".

(** ** JavaScript values *)

(** The values that flow through the code: what [JSON.parse] and
    [response.json()] produce, object literals built by the code, and
    [undefined].  A number is carried as a rational, which covers every
    finite double. *)
Inductive JsVal : Type :=
| JUndefined
| JNull
| JBool (b : bool)
| JNum (q : Q)
| JStr (s : string)
| JArr (items : list JsVal)
| JObj (fields : list (string * JsVal)).

(** ToBoolean. *)
Definition truthy (v : JsVal) : bool :=
  match v with
  | JUndefined | JNull => false
  | JBool b => b
  | JNum q => negb (Qeq_bool q 0)
  | JStr s => negb (s =? EmptyString)%string
  | JArr _ | JObj _ => true
  end.

(** [a || b] on values. *)
Definition js_or (a b : JsVal) : JsVal := if truthy a then a else b.

(** A string-typed parameter at run time: a string or [undefined]. *)
Definition truthy_str (s : option string) : bool :=
  match s with
  | Some s => negb (s =? EmptyString)%string
  | None => false
  end.

(** [a || b] where both sides are optional strings ([model || key]). *)
Definition str_or (a b : option string) : option string :=
  if truthy_str a then a else b.

(** [a || 'literal'] where the right side is a string literal. *)
Definition str_or_default (a : option string) (d : string) : string :=
  match a with
  | Some s => if (s =? EmptyString)%string then d else s
  | None => d
  end.

Definition of_opt_string (s : option string) : JsVal :=
  match s with
  | Some s => JStr s
  | None => JUndefined
  end.

(** [String.prototype.includes]. *)
Fixpoint includes (sub s : string) : bool :=
  if String.prefix sub s then true
  else match s with
       | EmptyString => false
       | String _ rest => includes sub rest
       end.

Definition nl : string := String "010" EmptyString.

(** Decimal rendering of an integer inside a template literal. *)
Definition string_of_Z (z : Z) : string :=
  NilZero.string_of_int (Z.to_int z).

Fixpoint lookup_field (k : string) (fields : list (string * JsVal)) : option JsVal :=
  match fields with
  | [] => None
  | (k', v) :: rest => if (k =? k')%string then Some v else lookup_field k rest
  end.

(** [obj.k = v] on an object: overwrite the property in place, or add it. *)
Fixpoint set_field (k : string) (v : JsVal) (fields : list (string * JsVal))
  : list (string * JsVal) :=
  match fields with
  | [] => [(k, v)]
  | (k', v') :: rest =>
      if (k =? k')%string then (k, v) :: rest else (k', v') :: set_field k v rest
  end.

Definition assign (k : string) (v : JsVal) (obj : JsVal) : JsVal :=
  match obj with
  | JObj fields => JObj (set_field k v fields)
  | other => other
  end.

(** ** Thrown values *)

(** [error.request] as the [catch] block reads it: the two properties it
    looks up, each of which the object may lack.  The request object of
    the HTTP client has neither of them. *)
Record ClientRequest := {
  hostname : option string;
  syscall : option string
}.

(** A string property inside a template literal: an absent one prints as
    [undefined]. *)
Definition template_text (s : option string) : string :=
  match s with
  | Some s => s
  | None => "undefined"
  end.

(** A byte stream, as the chunks it yields before it ends. *)
Definition Stream := list string.

(** Modelled from the spec: [streamToString] of
    [helpers/stream-to-string.ts], which is not among the sources, converts
    an incoming byte stream into a fully buffered string. *)
Definition streamToString (s : Stream) : string := String.concat EmptyString s.

(** [response.data] of a failed axios call.  With [responseType: 'stream']
    it is an [IncomingMessage]: [chunks] is what the stream yields and
    [parsed] is the outcome of [JSON.parse] on the text [streamToString]
    reads from it ([None] when it throws). *)
Inductive ResponseData :=
| DataIncomingMessage (chunks : Stream) (parsed : option JsVal)
| DataPlain (v : JsVal).

Record AxiosResponse := {
  ax_status : Z;
  ax_data : ResponseData
}.

Record AxiosError := {
  ax_message : string;
  code : option string;
  request : option ClientRequest;
  response : option AxiosResponse
}.

(** Modelled from the spec: [KnownError] is the class of
    [helpers/error.ts], which is not among the sources; the specification
    has it as the user-facing error of a failed operation, so it is an
    [Error] that carries its message and nothing more.  It stands first
    among what a [throw] can carry.  [Error] is the built-in class;
    [TypeError] and [SyntaxError] come from the runtime ([fetch], a
    property read on [null], [response.json()]); [AxiosErr] is the
    rejection of the HTTP client; [NonError] is any thrown value that is
    not an [Error] instance, carried by its [String(...)] rendering. *)
Inductive Thrown :=
| KnownError (message : string)
| Error (message : string)
| TypeError (message : string)
| SyntaxError (message : string)
| AxiosErr (e : AxiosError)
| NonError (rendering : string).

(** [error instanceof Error ? error.message : String(error)]. *)
Definition error_text (t : Thrown) : string :=
  match t with
  | KnownError m | Error m | TypeError m | SyntaxError m => m
  | AxiosErr e => ax_message e
  | NonError r => r
  end.


(** The result of evaluating an expression: a thrown value or a result. *)
Definition Outcome (A : Type) : Type := (Thrown + A)%type.

Definition obind {A B} (o : Outcome A) (k : A -> Outcome B) : Outcome B :=
  match o with
  | inl t => inl t
  | inr a => k a
  end.

(** Property read [v.k] for a property name that no built-in prototype
    defines ([models], [data], [id], [name]): reading from [null] or
    [undefined] throws, an object yields its own property, and every other
    value yields [undefined]. *)
Definition get_prop (v : JsVal) (k : string) : Outcome JsVal :=
  match v with
  | JUndefined =>
      inl (TypeError ("Cannot read properties of undefined (reading '" ++ k ++ "')"))
  | JNull =>
      inl (TypeError ("Cannot read properties of null (reading '" ++ k ++ "')"))
  | JObj fields =>
      match lookup_field k fields with
      | Some x => inr x
      | None => inr JUndefined
      end
  | _ => inr JUndefined
  end.

Fixpoint map_outcome {A B} (f : A -> Outcome B) (l : list A) : Outcome (list B) :=
  match l with
  | [] => inr []
  | x :: rest =>
      obind (f x) (fun y => obind (map_outcome f rest) (fun ys => inr (y :: ys)))
  end.

(** [v?.map(f) || []]: nothing to map when [v] is [null] or [undefined],
    [Array.prototype.map] on an array, and a [TypeError] on anything else,
    which has no callable [map]. *)
Definition optional_map_or_empty {B} (v : JsVal) (f : JsVal -> Outcome B)
  : Outcome (list B) :=
  match v with
  | JUndefined | JNull => inr []
  | JArr items => map_outcome f items
  | _ => inl (TypeError "map is not a function")
  end.

(** ** The network *)

Record Request := {
  url : string;
  method : string;
  headers : list (string * string);
  body : option string
}.

(** A [fetch] response.  [content_type] is what
    [headers.get('content-type')] returns and [json_result] is the outcome
    of awaiting [response.json()]. *)
Record Response := {
  status : Z;
  statusText : string;
  content_type : option string;
  res_body : option Stream;
  json_result : Outcome JsVal
}.

(** [response.ok]: the status is in the range 200-299. *)
Definition ok (r : Response) : bool :=
  (200 <=? status r) && (status r <=? 299).

Definition has_body (r : Response) : bool :=
  match res_body r with
  | Some _ => true
  | None => false
  end.

(** [response.body as unknown as IncomingMessage]. *)
Definition body_stream (r : Response) : Stream :=
  match res_body r with
  | Some s => s
  | None => []
  end.

Inductive Role := system | user | assistant.

Record ChatCompletionRequestMessage := {
  role : Role;
  content : string
}.

Record Configuration := {
  apiKey : option string;
  basePath : option string
}.

Record CreateChatCompletionRequest := {
  cc_model : string;
  cc_messages : list ChatCompletionRequestMessage;
  cc_n : Z;
  cc_stream : bool
}.

(** One call that leaves the process. *)
Inductive Call :=
| Fetch (r : Request)
| CreateChatCompletion (cfg : Configuration) (r : CreateChatCompletionRequest).

Definition Log := list Call.

(** Everything outside the repository.  The servers answer a call knowing
    the calls that came before it, so any deterministic peer is covered;
    [JSON_stringify_pretty] is [JSON.stringify(v, null, 2)]; [Date_now] is
    the reading of the clock, taken as one value for the whole run. *)
Class World := {
  JSON_stringify : JsVal -> string;
  JSON_stringify_pretty : JsVal -> string;
  Date_now : Z;
  fetch_reply : Log -> Request -> Outcome Response;
  openai_reply : Log -> Configuration -> CreateChatCompletionRequest -> AxiosError + Stream
}.

(** ** Asynchronous computations

    Every [await] is sequential, so an [async] function is a function of
    the log of calls issued so far that returns an outcome and the new
    log. *)
Definition M (A : Type) : Type := Log -> Outcome A * Log.

Definition ret {A} (a : A) : M A := fun log => (inr a, log).

Definition throw {A} (t : Thrown) : M A := fun log => (inl t, log).

Definition bind {A B} (m : M A) (k : A -> M B) : M B :=
  fun log =>
    match m log with
    | (inr a, log') => k a log'
    | (inl t, log') => (inl t, log')
    end.

Definition try_catch {A} (m : M A) (handler : Thrown -> M A) : M A :=
  fun log =>
    match m log with
    | (inl t, log') => handler t log'
    | done => done
    end.

(** Awaiting something whose outcome is already determined. *)
Definition lift {A} (o : Outcome A) : M A := fun log => (o, log).

Notation "x <- m ;; k" := (bind m (fun x => k))
  (at level 61, m at next level, right associativity).

(** [await fetch(...)]: the request is recorded and the server answers. *)
Definition fetch `{World} (req : Request) : M Response :=
  fun log => (fetch_reply log req, (log ++ [Fetch req])%list).

(** [await response.json()]. *)
Definition response_json (r : Response) : M JsVal := lift (json_result r).

(** ** local-stream.ts *)

Inductive Format := ollama | openai | lmstudio.

Definition Format_name (f : Format) : string :=
  match f with
  | ollama => "ollama"
  | openai => "openai"
  | lmstudio => "lmstudio"
  end.

Definition Format_eqb (a b : Format) : bool :=
  match a, b with
  | ollama, ollama | openai, openai | lmstudio, lmstudio => true
  | _, _ => false
  end.

Record LocalStreamResponse := {
  stream : Stream;
  format : Format
}.

(** The [url] chosen by the [switch] of [createStreamWithFormat]. *)
Definition chat_url (endpoint : string) (f : Format) : string :=
  match f with
  | ollama => endpoint ++ "/api/chat"
  | lmstudio => endpoint ++ "/v1/chat/completions"
  | openai => endpoint ++ "/chat/completions"
  end.

(** The [body] chosen by the same [switch]. *)
Definition chat_body (model : option string) (messages : list JsVal) (f : Format)
  : JsVal :=
  match f with
  | ollama =>
      JObj [("model", of_opt_string model);
            ("messages", JArr messages);
            ("stream", JBool true);
            ("options", JObj [("temperature", JNum (7 # 10));
                              ("top_p", JNum (9 # 10))])]
  | lmstudio =>
      JObj [("model", of_opt_string model);
            ("messages", JArr messages);
            ("stream", JBool true);
            ("temperature", JNum (7 # 10))]
  | openai =>
      JObj [("model", of_opt_string model);
            ("messages", JArr messages);
            ("stream", JBool true)]
  end.

(** The options both [fetch] calls of [createStreamWithFormat] pass. *)
Definition post `{World} (u : string) (b : JsVal) : Request :=
  {| url := u;
     method := "POST";
     headers := [("Content-Type", "application/json")];
     body := Some (JSON_stringify b) |}.

(** The [Readable] built for the non-streaming answer: the first [read]
    pushes one chunk and then ends the stream. *)
Definition fakeStream `{World} (json : JsVal) : Stream :=
  ["data: " ++ JSON_stringify json ++ nl].

Definition createStreamWithFormat `{World}
  (endpoint : string) (model : option string) (messages : list JsVal)
  (fmt : Format) : M LocalStreamResponse :=
  let isOllama := Format_eqb fmt ollama in
  let u := chat_url endpoint fmt in
  let b := chat_body model messages fmt in
  response <- fetch (post u b) ;;
  let retry : M LocalStreamResponse :=
    if isOllama then
      let b := assign "stream" (JBool false) b in
      response <- fetch (post u b) ;;
      if negb (ok response) then
        throw (Error (Format_name fmt ++ " request failed (non-stream): "
                        ++ statusText response))
      else
        json <- response_json response ;;
        ret {| stream := fakeStream json; format := fmt |}
    else
      throw (Error (Format_name fmt ++ " request failed: " ++ statusText response))
  in
  if ok response && has_body response && isOllama then
    let contentType := str_or_default (content_type response) EmptyString in
    if includes "application/x-ndjson" contentType
       || includes "text/event-stream" contentType
    then ret {| stream := body_stream response; format := fmt |}
    else retry
  else if ok response && has_body response then
    ret {| stream := body_stream response; format := fmt |}
  else retry.

(** The message of the error thrown after the loop of [createStream]. *)
Definition exhausted_message (endpoint : string) : string :=
  "Failed to connect to any local model server at " ++ endpoint
  ++ ". Supported formats: Ollama, LM Studio, OpenAI-compatible".

(** The [for ... of formats] loop of [createStream]: the first attempt that
    returns ends the function, a throwing attempt continues with the next
    format, and the statement after the loop throws. *)
Fixpoint createStream_loop `{World}
  (endpoint : string) (model : option string) (messages : list JsVal)
  (formats : list Format) : M LocalStreamResponse :=
  match formats with
  | [] => throw (KnownError (exhausted_message endpoint))
  | fmt :: rest =>
      try_catch (createStreamWithFormat endpoint model messages fmt)
                (fun _ => createStream_loop endpoint model messages rest)
  end.

Definition createStream `{World}
  (endpoint : string) (model : option string) (messages : list JsVal)
  (fmt : option Format) : M LocalStreamResponse :=
  match fmt with
  | Some f => createStreamWithFormat endpoint model messages f
  | None => createStream_loop endpoint model messages [ollama; lmstudio; openai]
  end.

(** An entry of the array [listModels] returns: [{ id, name }]. *)
Record ListedModel := {
  lm_id : JsVal;
  lm_name : JsVal
}.

(** [(data) => data.<list>?.map((m) => ({ id: m.<key>, name: m.<key> })) || []]. *)
Definition transform (list_key item_key : string) (data : JsVal)
  : Outcome (list ListedModel) :=
  obind (get_prop data list_key) (fun entries =>
    optional_map_or_empty entries (fun m =>
      obind (get_prop m item_key) (fun id =>
      obind (get_prop m item_key) (fun name =>
        inr {| lm_id := id; lm_name := name |})))).

Record ModelsProbe := {
  probe_format : Format;
  probe_url : string;
  probe_transform : JsVal -> Outcome (list ListedModel)
}.

(** The [formats] table of [listModels]. *)
Definition models_formats (endpoint : string) : list ModelsProbe :=
  [ {| probe_format := ollama;
       probe_url := endpoint ++ "/api/tags";
       probe_transform := transform "models" "name" |};
    {| probe_format := lmstudio;
       probe_url := endpoint ++ "/v1/models";
       probe_transform := transform "data" "id" |};
    {| probe_format := openai;
       probe_url := endpoint ++ "/models";
       probe_transform := transform "data" "id" |} ].

(** [fetch(url)] with no options. *)
Definition get (u : string) : Request :=
  {| url := u; method := "GET"; headers := []; body := None |}.

(** One iteration of the loop of [listModels]: [Some] is the value the
    function returns from inside the [try]; [None] means the loop moves on,
    either because the response was not [ok] or because the [catch] ran. *)
Definition probe `{World} (p : ModelsProbe) : M (option (list ListedModel)) :=
  try_catch
    (response <- fetch (get (probe_url p)) ;;
     if ok response then
       data <- response_json response ;;
       models <- lift (probe_transform p data) ;;
       ret (Some models)
     else ret None)
    (fun _ => ret None).

Fixpoint listModels_loop `{World} (formats : list ModelsProbe)
  : M (list ListedModel) :=
  match formats with
  | [] => ret []
  | p :: rest =>
      r <- probe p ;;
      match r with
      | Some models => ret models
      | None => listModels_loop rest
      end
  end.

Definition listModels `{World} (endpoint : string) : M (list ListedModel) :=
  listModels_loop (models_formats endpoint).

(** ** providers.ts *)

(** [prompt: string | ChatCompletionRequestMessage[]]. *)
Inductive Prompt :=
| PromptText (text : string)
| PromptMessages (messages : list ChatCompletionRequestMessage).

(** The parameter object of [generateCompletion].  [number] and [model]
    are optional by type; [key] and [apiEndpoint] are strings by type but
    arrive as [undefined] when the configuration has none, and the code
    tests them for that, so they are optional here as well. *)
Record CompletionParams := {
  prompt : Prompt;
  number : option Z;
  model : option string;
  key : option string;
  apiEndpoint : option string
}.

Record Model := {
  id : JsVal;
  object : string;
  created : Z;
  owned_by : string
}.

Definition Role_name (r : Role) : string :=
  match r with
  | system => "system"
  | user => "user"
  | assistant => "assistant"
  end.

Definition message_value (m : ChatCompletionRequestMessage) : JsVal :=
  JObj [("role", JStr (Role_name (role m))); ("content", JStr (content m))].

Module OpenAIProvider.

(** [error.code === 'ENOTFOUND']. *)
Definition is_dns_failure (error : AxiosError) : bool :=
  match code error with
  | Some c => (c =? "ENOTFOUND")%string
  | None => false
  end.

Definition name : string := "openai".

(** The first argument of [openAi.createChatCompletion]. *)
Definition completion_request (params : CompletionParams)
  : CreateChatCompletionRequest :=
  let number := match number params with Some n => n | None => 1 end in
  {| cc_model := str_or_default (model params) "gpt-4o-mini";
     cc_messages :=
       match prompt params with
       | PromptMessages messages => messages
       | PromptText text => [{| role := user; content := text |}]
       end;
     cc_n := Z.min number 10;
     cc_stream := true |}.

(** [await openAi.createChatCompletion(...)]: a rejection carries an
    [AxiosError]. *)
Definition createChatCompletion `{World}
  (cfg : Configuration) (req : CreateChatCompletionRequest) : M Stream :=
  fun log =>
    (match openai_reply log cfg req with
     | inl e => inl (AxiosErr e)
     | inr data => inr data
     end,
     (log ++ [CreateChatCompletion cfg req])%list).

(** The text of the first [dedent] template. *)
Definition quota_text : string :=
  "Request to OpenAI failed with status 429. This is due to incorrect billing setup or excessive quota usage. Please follow this guide to fix it: https://help.openai.com/en/articles/6891831-error-code-429-you-exceeded-your-current-quota-please-check-your-plan-and-billing-details"
  ++ nl ++ nl ++
  "You can activate billing here: https://platform.openai.com/account/billing/overview . Make sure to add a payment method if not under an active grant from OpenAI."
  ++ nl ++ nl ++
  "Full message from OpenAI:".

(** [message] after the [instanceof IncomingMessage] block: the parsed
    body when [JSON.parse] accepts it, the raw text otherwise, and
    [response.data] itself when it is not a stream. *)
Definition error_message (error : AxiosError) : JsVal :=
  match response error with
  | None => JUndefined
  | Some r =>
      match ax_data r with
      | DataIncomingMessage chunks (Some v) => v
      | DataIncomingMessage chunks None => JStr (streamToString chunks)
      | DataPlain v => v
      end
  end.

(** [messageString] as it appears inside the concatenations:
    [message && JSON.stringify(message, null, 2)] is the rendering of a
    truthy [message] and the falsy [message] itself otherwise, which the
    [+] then converts to a string. *)
Definition messageString `{World} (message : JsVal) : string :=
  if truthy message then JSON_stringify_pretty message
  else match message with
       | JUndefined => "undefined"
       | JNull => "null"
       | JBool _ => "false"
       | JNum _ => "0"
       | _ => EmptyString
       end.

(** The [catch] block. *)
Definition on_error `{World} (error : AxiosError) : M Stream :=
  if is_dns_failure error then
    match request error with
    | Some rq =>
        throw (KnownError ("Error connecting to " ++ template_text (hostname rq)
                             ++ " (" ++ template_text (syscall rq)
                             ++ "). Are you connected to the internet?"))
    | None =>
        throw (TypeError "Cannot read properties of undefined (reading 'hostname')")
    end
  else
    let message := error_message error in
    match response error with
    | Some r =>
        if ax_status r =? 429 then
          throw (KnownError (quota_text ++ nl ++ nl ++ messageString message ++ nl))
        else if truthy message then
          throw (KnownError ("Request to OpenAI failed with status "
                               ++ string_of_Z (ax_status r) ++ ":"
                               ++ nl ++ nl ++ messageString message ++ nl))
        else throw (AxiosErr error)
    | None => throw (AxiosErr error)
    end.

Definition generateCompletion `{World} (params : CompletionParams) : M Stream :=
  let cfg := {| apiKey := key params; basePath := apiEndpoint params |} in
  try_catch
    (createChatCompletion cfg (completion_request params))
    (fun err =>
       match err with
       | AxiosErr error => on_error error
       | other => throw other
       end).

End OpenAIProvider.

Module LocalProvider.

Definition name : string := "local".

Definition default_endpoint : string := "http://localhost:11434".

Definition localModel (params : CompletionParams) : option string :=
  str_or (model params) (key params).

Definition localEndpoint (apiEndpoint : option string) : string :=
  str_or_default apiEndpoint default_endpoint.

Definition messages_of (p : Prompt) : list JsVal :=
  match p with
  | PromptMessages messages => map message_value messages
  | PromptText text => [JObj [("role", JStr "user"); ("content", JStr text)]]
  end.

(** The message of the error thrown by the [catch] of
    [generateCompletion]. *)
Definition failure_message (endpoint : string) (error : Thrown) : string :=
  "Failed to connect to local model server at " ++ endpoint
  ++ ". Make sure your local model server (Ollama, LM Studio, etc.) is running."
  ++ nl ++ nl ++ "Error: " ++ error_text error.

Definition generateCompletion `{World} (params : CompletionParams) : M Stream :=
  let localModel := localModel params in
  let localEndpoint := localEndpoint (apiEndpoint params) in
  try_catch
    (let messages := messages_of (prompt params) in
     r <- createStream localEndpoint localModel messages None ;;
     ret (stream r))
    (fun error => throw (KnownError (failure_message localEndpoint error))).

Definition default_ids : list string :=
  ["llama2"; "llama2:7b"; "llama2:13b"; "llama2:70b"; "llama2:7b-chat";
   "llama2:13b-chat"; "llama2:70b-chat"; "codellama"; "codellama:7b";
   "codellama:34b-code-q5_K_M"; "codellama:13b"; "codellama:34b";
   "nous-hermes2:34b"; "nous-hermes:34b-instruct"].

Definition getDefaultModels `{World} : list Model :=
  map (fun i => {| id := JStr i; object := "model"; created := Date_now;
                   owned_by := "local" |})
      default_ids.

Definition getModels `{World} (key apiEndpoint : option string) : M (list Model) :=
  let localEndpoint := localEndpoint apiEndpoint in
  try_catch
    (models <- listModels localEndpoint ;;
     ret (map (fun model =>
                 {| id := js_or (lm_id model) (lm_name model);
                    object := "model";
                    created := Date_now;
                    owned_by := "local" |})
              models))
    (fun _ => ret getDefaultModels).

End LocalProvider.

(** *** The registry *)

Inductive ProviderClass := OpenAIProviderClass | LocalProviderClass.

Definition class_name (c : ProviderClass) : string :=
  match c with
  | OpenAIProviderClass => OpenAIProvider.name
  | LocalProviderClass => LocalProvider.name
  end.

(** The provider objects that exist, by address. *)
Definition Heap := list ProviderClass.

(** [new C()]: a fresh address. *)
Definition new (c : ProviderClass) (h : Heap) : nat * Heap :=
  (length h, (h ++ [c])%list).

(** What a property read on the [providers] object can yield: a provider
    instance, or a member the object inherits from [Object.prototype]. *)
Inductive PropertyValue :=
| Instance (address : nat)
| Inherited (member : string).

Record ModuleState := {
  heap : Heap;
  providers : list (string * nat)
}.

(** Evaluation of the [providers] object literal when the module loads. *)
Definition module_init : ModuleState :=
  let '(a_openai, h) := new OpenAIProviderClass [] in
  let '(a_local, h) := new LocalProviderClass h in
  {| heap := h; providers := [("openai", a_openai); ("local", a_local)] |}.

(** The property names of [Object.prototype], the prototype of every
    object literal; each of them holds a function, or for [__proto__] the
    prototype itself, so each is truthy. *)
Definition Object_prototype : list string :=
  ["constructor"; "__defineGetter__"; "__defineSetter__"; "hasOwnProperty";
   "__lookupGetter__"; "__lookupSetter__"; "isPrototypeOf";
   "propertyIsEnumerable"; "toString"; "valueOf"; "__proto__";
   "toLocaleString"].

Fixpoint own_property (k : string) (table : list (string * nat)) : option nat :=
  match table with
  | [] => None
  | (k', a) :: rest => if (k =? k')%string then Some a else own_property k rest
  end.

Fixpoint mem_string (k : string) (l : list string) : bool :=
  match l with
  | [] => false
  | k' :: rest => (k =? k')%string || mem_string k rest
  end.

(** [providers[name]]: an own property first, then the prototype chain;
    [None] is [undefined]. *)
Definition read_property (st : ModuleState) (name : string) : option PropertyValue :=
  match own_property name (providers st) with
  | Some a => Some (Instance a)
  | None => if mem_string name Object_prototype then Some (Inherited name) else None
  end.

Definition getProvider (name : string) (st : ModuleState)
  : Outcome PropertyValue * ModuleState :=
  match read_property st name with
  | None => (inl (KnownError ("Unknown provider: " ++ name)), st)
  | Some provider => (inr provider, st)
  end.

(** The class of the object a call returned, when it is a provider. *)
Definition provider_class (st : ModuleState) (v : PropertyValue) : option ProviderClass :=
  match v with
  | Instance a => nth_error (heap st) a
  | Inherited _ => None
  end.

(** ** Observations on the calls issued *)

(** The first request of a dialect attempt. *)
Definition streaming_request `{World}
  (endpoint : string) (model : option string) (messages : list JsVal) (f : Format)
  : Request :=
  post (chat_url endpoint f) (chat_body model messages f).

(** The request of the retry: the same call once [body.stream = false] has
    run. *)
Definition non_streaming_request `{World}
  (endpoint : string) (model : option string) (messages : list JsVal) (f : Format)
  : Request :=
  post (chat_url endpoint f) (assign "stream" (JBool false) (chat_body model messages f)).


(** ** The negotiation state machine

    The states of the specification: [TryDialect] on the formats that
    remain, [Success] when an attempt returns (tagged with its own format),
    the next format when an attempt throws, and [ExhaustedFailure] once no
    format remains.  [attempt] is one dialect attempt. *)
Inductive Negotiation
  (attempt : Format -> M LocalStreamResponse) (endpoint : string)
  : list Format -> Log -> Outcome LocalStreamResponse * Log -> Prop :=
| Success f rest log r log' :
    attempt f log = (inr r, log') ->
    format r = f ->
    Negotiation attempt endpoint (f :: rest) log (inr r, log')
| NextDialect f rest log e log' out :
    attempt f log = (inl e, log') ->
    Negotiation attempt endpoint rest log' out ->
    Negotiation attempt endpoint (f :: rest) log out
| ExhaustedFailure log :
    Negotiation attempt endpoint [] log
      (inl (KnownError (exhausted_message endpoint)), log).

(** ** Test doubles

    A JSON encoder and a few servers to run the code on.  The encoder
    prints strings with the escapes of quote, backslash and newline, and a
    number by its decimal expansion; it serves for the compact and for the
    indented form alike. *)
Module Mock.

Definition dquote : string := String "034" EmptyString.
Definition backslash : string := String "092" EmptyString.

Fixpoint escape (s : string) : string :=
  match s with
  | EmptyString => EmptyString
  | String c rest =>
      (if Ascii.eqb c "034" then backslash ++ dquote
       else if Ascii.eqb c "092" then backslash ++ backslash
       else if Ascii.eqb c "010" then backslash ++ "n"
       else String c EmptyString) ++ escape rest
  end.

Definition quote (s : string) : string := dquote ++ escape s ++ dquote.

Fixpoint digits (fuel : nat) (r d : Z) : string :=
  match fuel with
  | O => EmptyString
  | S fuel =>
      if r =? 0 then EmptyString
      else string_of_Z (10 * r / d) ++ digits fuel (10 * r mod d) d
  end.

Definition encode_number (q : Q) : string :=
  let n := Qnum q in
  let d := Z.pos (Qden q) in
  let a := Z.abs n in
  (if n <? 0 then "-" else EmptyString)
  ++ string_of_Z (a / d)
  ++ (if a mod d =? 0 then EmptyString else "." ++ digits 17 (a mod d) d).

Fixpoint encode (v : JsVal) : string :=
  match v with
  | JUndefined | JNull => "null"
  | JBool b => if b then "true" else "false"
  | JNum q => encode_number q
  | JStr s => quote s
  | JArr items =>
      "[" ++ (fix go (l : list JsVal) : string :=
                match l with
                | [] => EmptyString
                | x :: rest =>
                    encode x ++ match rest with [] => EmptyString | _ => "," ++ go rest end
                end) items ++ "]"
  | JObj fields =>
      "{" ++ (fix go (first : bool) (l : list (string * JsVal)) : string :=
                match l with
                | [] => EmptyString
                | (k, x) :: rest =>
                    match x with
                    | JUndefined => go first rest
                    | _ => (if first then EmptyString else ",") ++ quote k ++ ":"
                           ++ encode x ++ go false rest
                    end
                end) true fields ++ "}"
  end.

Definition no_api : Log -> Configuration -> CreateChatCompletionRequest
                    -> AxiosError + Stream :=
  fun _ _ _ => inr [].

Definition world
  (server : Log -> Request -> Outcome Response)
  (api : Log -> Configuration -> CreateChatCompletionRequest -> AxiosError + Stream)
  : World :=
  {| JSON_stringify := encode;
     JSON_stringify_pretty := encode;
     Date_now := 1700000000000;
     fetch_reply := server;
     openai_reply := api |}.

Definition endpoint : string := "http://localhost:11434".

Definition not_found : Response :=
  {| status := 404; statusText := "Not Found"; content_type := Some "text/plain";
     res_body := Some ["404 page not found"];
     json_result := inl (SyntaxError "Unexpected token") |}.

(** Nothing listens on the port: every [fetch] rejects. *)
Definition refusing : Log -> Request -> Outcome Response :=
  fun _ _ => inl (TypeError "fetch failed").

(** Every request is answered with the same response. *)
Definition always (r : Response) : Log -> Request -> Outcome Response :=
  fun _ _ => inr r.

Definition server_error : Response :=
  {| status := 500; statusText := "Internal Server Error";
     content_type := Some "text/plain"; res_body := Some [];
     json_result := inl (SyntaxError "Unexpected end of JSON input") |}.

(** A server that knows one path and answers 404 everywhere else. *)
Definition only_path (path : string) (r : Response)
  : Log -> Request -> Outcome Response :=
  fun _ req => if (url req =? endpoint ++ path)%string then inr r else inr not_found.

Definition chunks : Stream := ["{done:false}"; "{done:true}"].

Definition streaming : Response :=
  {| status := 200; statusText := "OK";
     content_type := Some "application/x-ndjson";
     res_body := Some chunks;
     json_result := inl (SyntaxError "Unexpected token") |}.

Definition answer : JsVal :=
  JObj [("message", JObj [("role", JStr "assistant"); ("content", JStr "ls -la")]);
        ("done", JBool true)].

(** An ollama that answers with one JSON document whatever is asked. *)
Definition buffered : Response :=
  {| status := 200; statusText := "OK";
     content_type := Some "application/json";
     res_body := Some [encode answer];
     json_result := inr answer |}.

Definition params : CompletionParams :=
  {| prompt := PromptText "list files";
     number := Some 50;
     model := None;
     key := Some "sk-test";
     apiEndpoint := Some "https://api.openai.com/v1" |}.

(** A local configuration that names neither a model nor a key. *)
Definition bare_params : CompletionParams :=
  {| prompt := PromptText "list files";
     number := None;
     model := None;
     key := Some EmptyString;
     apiEndpoint := None |}.

Definition rejecting (e : AxiosError)
  : Log -> Configuration -> CreateChatCompletionRequest -> AxiosError + Stream :=
  fun _ _ _ => inl e.

(** The request object the HTTP client attaches to its errors: it has no
    [hostname] and no [syscall] property. *)
Definition client_request : ClientRequest :=
  {| hostname := None; syscall := None |}.

Definition dns_failure : AxiosError :=
  {| ax_message := "getaddrinfo ENOTFOUND api.openai.com";
     code := Some "ENOTFOUND";
     request := Some client_request;
     response := None |}.

Definition http_failure (st : Z) (data : ResponseData) : AxiosError :=
  {| ax_message := "Request failed with status code " ++ string_of_Z st;
     code := Some "ERR_BAD_RESPONSE";
     request := Some client_request;
     response := Some {| ax_status := st; ax_data := data |} |}.


(** A 200 answer whose JSON document has none of the expected fields. *)
Definition empty_object : Response :=
  {| status := 200; statusText := "OK";
     content_type := Some "application/json";
     res_body := Some ["{}"];
     json_result := inr (JObj []) |}.

End Mock.

(** ** Further observations *)

(** The test [createStreamWithFormat] applies to the first response before
    it returns its body as the stream. *)
Definition accepts_stream (f : Format) (r : Response) : bool :=
  ok r && has_body r
  && (negb (Format_eqb f ollama)
      || includes "application/x-ndjson" (str_or_default (content_type r) EmptyString)
      || includes "text/event-stream" (str_or_default (content_type r) EmptyString)).

(** A chat request as [createStreamWithFormat] builds it: a POST to the
    chat path of some dialect with the JSON content type as its only
    header and a body. *)
Definition is_chat_post (endpoint : string) (c : Call) : Prop :=
  exists q f,
    c = Fetch q
    /\ url q = chat_url endpoint f
    /\ method q = "POST"
    /\ headers q = [("Content-Type", "application/json")]
    /\ body q <> None.


(** [v == null]: the values on which a property read throws and [?.]
    stops. *)
Definition nullish (v : JsVal) : bool :=
  match v with
  | JUndefined | JNull => true
  | _ => false
  end.

Definition is_array (v : JsVal) : bool :=
  match v with
  | JArr _ => true
  | _ => false
  end.

(** What one iteration of the loop of [listModels] comes to, read off the
    reply to its request: the list of the transform when [fetch] fulfils
    with a 2xx response whose JSON document the transform accepts, and
    nothing, so that the loop moves on, in every other case. *)
Definition probe_answer (reply : Outcome Response)
  (transform : JsVal -> Outcome (list ListedModel)) : option (list ListedModel) :=
  match reply with
  | inr response =>
      if ok response then
        match obind (json_result response) transform with
        | inr models => Some models
        | inl _ => None
        end
      else None
  | inl _ => None
  end.

(** [OpenAIProvider.getModels]: [reply] is the outcome of awaiting
    [openAi.listModels()], a rejection or the array [response.data.data]. *)
Definition OpenAIProvider_getModels (reply : AxiosError + list Model)
  : Outcome (list Model) :=
  match reply with
  | inl e => inl (AxiosErr e)
  | inr data => inr (filter (fun model => (object model =? "model")%string) data)
  end.

(** ** config.ts *)

(** [ConfigKeys]: the property names of [configParsers], in the order of
    the object literal. *)
Module ConfigKeys.
Inductive t := API_KEY | MODEL | SILENT_MODE | API_ENDPOINT | LANGUAGE | PROVIDER.

Definition name (k : t) : string :=
  match k with
  | API_KEY => "API_KEY"
  | MODEL => "MODEL"
  | SILENT_MODE => "SILENT_MODE"
  | API_ENDPOINT => "API_ENDPOINT"
  | LANGUAGE => "LANGUAGE"
  | PROVIDER => "PROVIDER"
  end.

Definition eqb (a b : t) : bool :=
  match a, b with
  | API_KEY, API_KEY | MODEL, MODEL | SILENT_MODE, SILENT_MODE
  | API_ENDPOINT, API_ENDPOINT | LANGUAGE, LANGUAGE | PROVIDER, PROVIDER => true
  | _, _ => false
  end.

(** [Object.keys(configParsers)]. *)
Definition all : list t :=
  [API_KEY; MODEL; SILENT_MODE; API_ENDPOINT; LANGUAGE; PROVIDER].
End ConfigKeys.

(** [RawConfig]: the object [ini.parse] makes of the configuration file,
    and the object the command line passes: properties by name.  The type
    of the source gives every property a string; at run time [ini.parse]
    also yields the booleans and [null] for the words [true], [false] and
    [null], a value of any JSON type for a quoted text, an array for a key
    that ends in brackets and an object for a section. *)
Definition RawConfig := list (string * JsVal).

(** [ValidConfig]: what each parser returns under its key.  The parsers
    hand a truthy argument back as it is, so only [SILENT_MODE] has the
    type its signature promises. *)
Record ValidConfig := {
  valid_API_KEY : JsVal;
  valid_MODEL : JsVal;
  valid_SILENT_MODE : bool;
  valid_API_ENDPOINT : JsVal;
  valid_LANGUAGE : JsVal;
  valid_PROVIDER : JsVal
}.

(** What the configuration module takes from outside: the command name of
    [constants.ts], the translation function [i18n.t], the [ini] codec,
    the file [~/.ai-shell] as the three file-system calls see it, and the
    conversion to a string of the values whose text this development does
    not compute: [String_other v] is [String(v)] for a number, an array
    or an object, which throws a [TypeError] on an object that has neither
    [toString] nor [valueOf], such as one made by [Object.create(null)]. *)
Class ConfigEnv := {
  commandName : string;
  i18n_t : string -> string;
  ini_parse : string -> RawConfig;
  ini_stringify : RawConfig -> string;
  lstat_fulfils : bool;
  readFile : Outcome string;
  writeFile : string -> Outcome unit;
  String_other : JsVal -> Outcome string
}.

(** [config[key]] for one of the six names, none of which is a property
    of [Object.prototype]: the own property, or [undefined]. *)
Definition config_get (k : ConfigKeys.t) (config : RawConfig) : JsVal :=
  match lookup_field (ConfigKeys.name k) config with
  | Some v => v
  | None => JUndefined
  end.

(** [config[key] = parsed]. *)
Definition config_set (k : ConfigKeys.t) (v : JsVal) (config : RawConfig) : RawConfig :=
  set_field (ConfigKeys.name k) v config.

Definition lower (c : ascii) : ascii :=
  let n := nat_of_ascii c in
  if (65 <=? n)%nat && (n <=? 90)%nat then ascii_of_nat (n + 32) else c.

(** [String.prototype.toLowerCase] on the letters A to Z.  The code only
    compares the result with ['true'], and no character outside A-Z
    lowercases to one of t, r, u, e, so the comparison is the same. *)
Fixpoint toLowerCase (s : string) : string :=
  match s with
  | EmptyString => EmptyString
  | String c rest => String (lower c) (toLowerCase rest)
  end.

(** [String(v)], and [v] inside a template literal. *)
Definition js_String `{ConfigEnv} (v : JsVal) : Outcome string :=
  match v with
  | JUndefined => inr "undefined"
  | JNull => inr "null"
  | JBool b => inr (if b then "true" else "false")
  | JStr s => inr s
  | JNum _ | JArr _ | JObj _ => String_other v
  end.

(** [v === 0]. *)
Definition is_zero (v : JsVal) : bool :=
  match v with
  | JNum q => Qeq_bool q 0
  | _ => false
  end.

(** [v.length === 0] on a truthy [v]: the length of a string or of an
    array, the own property of an object, and [undefined] on a number or
    a boolean.  The code reads it behind [!v ||], so never on [null] or
    [undefined]. *)
Definition length_is_zero (v : JsVal) : bool :=
  match v with
  | JStr s => (String.length s =? 0)%nat
  | JArr items => (List.length items =? 0)%nat
  | JObj fields =>
      match lookup_field "length" fields with
      | Some n => is_zero n
      | None => false
      end
  | _ => false
  end.

(** [v === 'literal']. *)
Definition is_string (literal : string) (v : JsVal) : bool :=
  match v with
  | JStr s => (s =? literal)%string
  | _ => false
  end.

Module configParsers.
Section Parsers.
Context `{ConfigEnv}.

Definition API_KEY_message : string :=
  "Please set your API key via `" ++ commandName ++ " config set API_KEY=<your token>`".

Definition API_KEY (key : JsVal) : Outcome JsVal :=
  if negb (truthy key) then inl (KnownError API_KEY_message) else inr key.

Definition MODEL (model : JsVal) : JsVal :=
  if negb (truthy model) || length_is_zero model then JStr "gpt-4o-mini" else model.

Definition SILENT_MODE (mode : JsVal) : Outcome bool :=
  obind (js_String mode) (fun text => inr (toLowerCase text =? "true")%string).

Definition API_ENDPOINT (apiEndpoint : JsVal) : JsVal :=
  js_or apiEndpoint (JStr "https://api.openai.com/v1").

Definition LANGUAGE (language : JsVal) : JsVal :=
  js_or language (JStr "en").

Definition PROVIDER_message (text : string) : string :=
  "Invalid provider: " ++ text ++ ". Supported providers: openai, local".

Definition PROVIDER (provider : JsVal) : Outcome JsVal :=
  if negb (truthy provider) || length_is_zero provider then inr (JStr "openai")
  else if negb (is_string "openai" provider) && negb (is_string "local" provider) then
    obind (js_String provider) (fun text => inl (KnownError (PROVIDER_message text)))
  else inr provider.

End Parsers.
End configParsers.

(** [configParsers[key](value)]. *)
Definition run_parser `{ConfigEnv} (k : ConfigKeys.t) (value : JsVal) : Outcome JsVal :=
  match k with
  | ConfigKeys.API_KEY => configParsers.API_KEY value
  | ConfigKeys.MODEL => inr (configParsers.MODEL value)
  | ConfigKeys.SILENT_MODE =>
      obind (configParsers.SILENT_MODE value) (fun mode => inr (JBool mode))
  | ConfigKeys.API_ENDPOINT => inr (configParsers.API_ENDPOINT value)
  | ConfigKeys.LANGUAGE => inr (configParsers.LANGUAGE value)
  | ConfigKeys.PROVIDER => configParsers.PROVIDER value
  end.

(** [hasOwn(configParsers, key)], with the key it finds. *)
Definition own_key (key : string) : option ConfigKeys.t :=
  find (fun k => (key =? ConfigKeys.name k)%string) ConfigKeys.all.

Definition readConfigFile `{ConfigEnv} : Outcome RawConfig :=
  if lstat_fulfils then obind readFile (fun configString => inr (ini_parse configString))
  else inr [].

(** [cliConfig?.[key] ?? config[key]]: the value of the file stands in
    when the command line has none, or has [null] or [undefined]. *)
Definition config_value (cliConfig : option RawConfig) (config : RawConfig)
  (k : ConfigKeys.t) : JsVal :=
  let given :=
    match cliConfig with
    | Some cli => config_get k cli
    | None => JUndefined
    end in
  if nullish given then config_get k config else given.

(** The loop of [getConfig] runs the parsers in the order of
    [Object.keys(configParsers)]; the first one that throws ends it. *)
Definition getConfig `{ConfigEnv} (cliConfig : option RawConfig) : Outcome ValidConfig :=
  obind readConfigFile (fun config =>
  let value := config_value cliConfig config in
  obind (configParsers.API_KEY (value ConfigKeys.API_KEY)) (fun api_key =>
  let model := configParsers.MODEL (value ConfigKeys.MODEL) in
  obind (configParsers.SILENT_MODE (value ConfigKeys.SILENT_MODE)) (fun silent =>
  let endpoint := configParsers.API_ENDPOINT (value ConfigKeys.API_ENDPOINT) in
  let language := configParsers.LANGUAGE (value ConfigKeys.LANGUAGE) in
  obind (configParsers.PROVIDER (value ConfigKeys.PROVIDER)) (fun provider =>
  inr {| valid_API_KEY := api_key;
         valid_MODEL := model;
         valid_SILENT_MODE := silent;
         valid_API_ENDPOINT := endpoint;
         valid_LANGUAGE := language;
         valid_PROVIDER := provider |})))).

(** The loop of [setConfigs] on the configuration object; the values of
    the pairs are strings. *)
Fixpoint setConfigs_loop `{ConfigEnv}
  (keyValues : list (string * string)) (config : RawConfig) : Outcome RawConfig :=
  match keyValues with
  | [] => inr config
  | (key, value) :: rest =>
      match own_key key with
      | None => inl (KnownError (i18n_t "Invalid config property" ++ ": " ++ key))
      | Some k =>
          obind (run_parser k (JStr value)) (fun parsed =>
            setConfigs_loop rest (config_set k parsed config))
      end
  end.

(** [setConfigs]: the outcome, and the texts handed to [fs.writeFile]. *)
Definition setConfigs `{ConfigEnv} (keyValues : list (string * string))
  : Outcome unit * list string :=
  match readConfigFile with
  | inl e => (inl e, [])
  | inr config =>
      match setConfigs_loop keyValues config with
      | inl e => (inl e, [])
      | inr config => (writeFile (ini_stringify config), [ini_stringify config])
      end
  end.

(** Whether one iteration of the loop of [setConfigs] gets past its two
    throws on this pair. *)
Definition accepts_pair `{ConfigEnv} (kv : string * string) : bool :=
  match own_key (fst kv) with
  | None => false
  | Some k =>
      match run_parser k (JStr (snd kv)) with
      | inr _ => true
      | inl _ => false
      end
  end.

(** The value of the last pair of the list that names the key. *)
Fixpoint last_assigned (k : ConfigKeys.t) (keyValues : list (string * string))
  : option string :=
  match keyValues with
  | [] => None
  | (key, value) :: rest =>
      match last_assigned k rest with
      | Some v => Some v
      | None =>
          match own_key key with
          | Some k' => if ConfigKeys.eqb k k' then Some value else None
          | None => None
          end
      end
  end.

(** A configuration file for the examples: [file] is what [ini.parse]
    makes of the file, [None] when there is no file; the codec writes one
    [KEY=value] line per property. *)
Module MockConfig.

(** [String(v)] on the values of the examples; an object is one of
    [ini.parse], which has no prototype. *)
Fixpoint text (v : JsVal) : Outcome string :=
  match v with
  | JUndefined => inr "undefined"
  | JNull => inr "null"
  | JBool b => inr (if b then "true" else "false")
  | JNum q => inr (Mock.encode_number q)
  | JStr s => inr s
  | JArr items =>
      (fix join (l : list JsVal) : Outcome string :=
         match l with
         | [] => inr EmptyString
         | x :: rest =>
             obind (match x with
                    | JUndefined | JNull => inr EmptyString
                    | _ => text x
                    end) (fun first =>
             match rest with
             | [] => inr first
             | _ => obind (join rest) (fun others => inr (first ++ "," ++ others))
             end)
         end) items
  | JObj _ => inl (TypeError "Cannot convert object to primitive value")
  end.

Definition line (kv : string * JsVal) : string :=
  match text (snd kv) with
  | inr value => fst kv ++ "=" ++ value ++ nl
  | inl _ => "[" ++ fst kv ++ "]" ++ nl
  end.

Definition render (config : RawConfig) : string :=
  String.concat EmptyString (map line config).

Definition env (file : option RawConfig) : ConfigEnv :=
  {| commandName := "ai";
     i18n_t := fun text => text;
     ini_parse := fun _ => match file with Some raw => raw | None => [] end;
     ini_stringify := render;
     lstat_fulfils := match file with Some _ => true | None => false end;
     readFile :=
       match file with
       | Some raw => inr (render raw)
       | None => inl (Error "ENOENT: no such file or directory")
       end;
     writeFile := fun _ => inr tt;
     String_other := text |}.

Definition local_file : RawConfig :=
  [("API_KEY", JStr "sk-test");
   ("MODEL", JStr "llama2");
   ("PROVIDER", JStr "local");
   ("API_ENDPOINT", JStr "http://localhost:11434")].

(** A file with the lines [API_KEY=false] and [PROVIDER=local]: [ini.parse]
    reads the word [false] as the boolean. *)
Definition key_false_file : RawConfig :=
  [("API_KEY", JBool false); ("PROVIDER", JStr "local")].

(** A file with the lines [API_KEY=sk-test], [PROVIDER=false] and the bare
    line [SILENT_MODE], which [ini.parse] reads as the boolean [true]. *)
Definition provider_false_file : RawConfig :=
  [("API_KEY", JStr "sk-test"); ("PROVIDER", JBool false); ("SILENT_MODE", JBool true)].

End MockConfig.


(** More servers for the examples. *)
Module MockMore.

(** An ollama that refuses the streaming request with a 500 and answers
    the next request with one JSON document. *)
Definition stream_refused : Log -> Request -> Outcome Response :=
  fun log _ =>
    match log with
    | [] => inr Mock.server_error
    | _ => inr Mock.buffered
    end.

Definition tags : JsVal :=
  JObj [("models", JArr [JObj [("name", JStr "llama2:7b"); ("size", JNum 3826793677)];
                         JObj [("name", JStr "codellama")]])].

(** An ollama with two models installed. *)
Definition tags_response : Response :=
  {| status := 200; statusText := "OK";
     content_type := Some "application/json";
     res_body := Some [Mock.encode tags];
     json_result := inr tags |}.

Definition model_list : JsVal :=
  JObj [("object", JStr "list");
        ("data", JArr [JObj [("id", JStr "mistral-7b"); ("object", JStr "model")]])].

(** An LM Studio: no [/api/tags], a model list under [/v1/models]. *)
Definition lmstudio_models : Log -> Request -> Outcome Response :=
  Mock.only_path "/v1/models"
    {| status := 200; statusText := "OK";
       content_type := Some "application/json";
       res_body := Some [Mock.encode model_list];
       json_result := inr model_list |}.

Definition upstream_models : list Model :=
  [ {| id := JStr "gpt-4o-mini"; object := "model"; created := 1721172741;
       owned_by := "system" |};
    {| id := JStr "ft-job"; object := "fine_tuning.job"; created := 1721172742;
       owned_by := "user" |} ].

End MockMore.

(** * Properties *)

(** ** Strings *)

Lemma prefix_app (sub t : string) : String.prefix sub (sub ++ t) = true.
Proof.
  induction sub as [|c sub IH]; simpl.
  - destruct t; reflexivity.
  - destruct (ascii_dec c c) as [_|ne]; [exact IH | contradiction].
Qed.


Lemma includes_unfold (sub s : string) :
  includes sub s =
  if String.prefix sub s then true
  else match s with
       | EmptyString => false
       | String _ rest => includes sub rest
       end.
Proof. destruct s; reflexivity. Qed.


Lemma includes_app_r (sub a t : string) :
  includes sub t = true -> includes sub (a ++ t) = true.
Proof.
  intros Hi. induction a as [|d a IH]; [exact Hi|].
  change (String d a ++ t) with (String d (a ++ t)).
  rewrite includes_unfold. cbv beta iota. rewrite IH.
  destruct (String.prefix sub (String d (a ++ t))); reflexivity.
Qed.

Lemma includes_self_app (sub t : string) : includes sub (sub ++ t) = true.
Proof. rewrite includes_unfold, prefix_app. reflexivity. Qed.

Lemma includes_middle (sub a t : string) : includes sub (a ++ sub ++ t) = true.
Proof. apply includes_app_r, includes_self_app. Qed.

Lemma append_empty_r (s : string) : s ++ EmptyString = s.
Proof. induction s; simpl; congruence. Qed.

Lemma includes_end (sub a : string) : includes sub (a ++ sub) = true.
Proof.
  rewrite <- (append_empty_r sub) at 2. apply includes_middle.
Qed.

Ltac run :=
  unfold createStreamWithFormat, response_json, fetch, bind, try_catch, ret, throw, lift.

Ltac pairs :=
  repeat match goal with
         | E : (_, _) = (_, _) |- _ => inversion E; subst; clear E
         end.

Ltac break :=
  repeat match goal with
         | |- context [match ?x with _ => _ end] => destruct x eqn:?
         | H : context [match ?x with _ => _ end] |- _ => destruct x eqn:?
         end.

(** ** The negotiator *)

Section Negotiator.
Context `{World}.
Variables (endpoint : string) (model : option string) (messages : list JsVal).

Abbreviation attempt := (createStreamWithFormat endpoint model messages).
Abbreviation first := (streaming_request endpoint model messages).
Abbreviation second := (non_streaming_request endpoint model messages).

Lemma attempt_format f log r log' :
  attempt f log = (inr r, log') -> format r = f.
Proof.
  run. cbv zeta. intros E.
  break; inversion E; subst; reflexivity.
Qed.

Lemma attempt_log f log :
  snd (attempt f log) = (log ++ [Fetch (first f)])%list
  \/ (f = ollama
      /\ snd (attempt f log) = (log ++ [Fetch (first f); Fetch (second f)])%list).
Proof.
  unfold streaming_request, non_streaming_request.
  run. cbv zeta.
  destruct f; break; simpl in *; try discriminate;
    rewrite <- ?app_assoc; simpl; auto.
Qed.

Lemma attempt_requests f log :
  exists reqs,
    snd (attempt f log) = (log ++ map Fetch reqs)%list
    /\ reqs <> []
    /\ Forall (fun q => url q = chat_url endpoint f) reqs.
Proof.
  destruct (attempt_log f log) as [E | [_ E]].
  - exists [first f]. repeat split; [exact E | discriminate |].
    repeat constructor.
  - exists [first f; second f]. repeat split; [exact E | discriminate |].
    repeat constructor.
Qed.

Lemma loop_negotiation formats log :
  Negotiation attempt endpoint formats log
    (createStream_loop endpoint model messages formats log).
Proof.
  revert log. induction formats as [|f rest IH]; intros log; simpl.
  - constructor.
  - unfold try_catch.
    destruct (attempt f log) as [[e | r] log'] eqn:E.
    + eapply NextDialect; [exact E | apply IH].
    + eapply Success; [exact E | eapply attempt_format; exact E].
Qed.



Lemma loop_exhausted formats log e log' :
  createStream_loop endpoint model messages formats log = (inl e, log') ->
  e = KnownError (exhausted_message endpoint).
Proof.
  revert log. induction formats as [|f rest IH]; intros log; simpl.
  - unfold throw. congruence.
  - unfold try_catch. destruct (attempt f log) as [[t | r] l]; [apply IH | discriminate].
Qed.
End Negotiator.

(** C2: with no pinned format [createStream] walks the state machine of the
    negotiation over ollama, lmstudio, openai in this order: the first
    attempt that returns is the result and carries its own format, an
    attempt that throws hands over to the next format; with a pinned
    format it is that one attempt and nothing else.  Every attempt sends
    at least one request and sends all of them to the chat path of its own
    dialect. *)
Theorem createStream_dialect_order `{World}
  (endpoint : string) (model : option string) (messages : list JsVal) :
  let attempt := createStreamWithFormat endpoint model messages in
  (forall log,
      Negotiation attempt endpoint [ollama; lmstudio; openai] log
        (createStream endpoint model messages None log))
  /\ (forall log r l1,
         attempt ollama log = (inr r, l1) ->
         createStream endpoint model messages None log = (inr r, l1)
         /\ format r = ollama)
  /\ (forall log e1 l1 r l2,
         attempt ollama log = (inl e1, l1) ->
         attempt lmstudio l1 = (inr r, l2) ->
         createStream endpoint model messages None log = (inr r, l2)
         /\ format r = lmstudio)
  /\ (forall log e1 l1 e2 l2 r l3,
         attempt ollama log = (inl e1, l1) ->
         attempt lmstudio l1 = (inl e2, l2) ->
         attempt openai l2 = (inr r, l3) ->
         createStream endpoint model messages None log = (inr r, l3)
         /\ format r = openai)
  /\ (forall f log,
         createStream endpoint model messages (Some f) log = attempt f log)
  /\ (forall f log,
         exists reqs,
           snd (attempt f log) = (log ++ map Fetch reqs)%list
           /\ reqs <> []
           /\ Forall (fun q => url q = chat_url endpoint f) reqs).
Proof.
  cbv zeta. split; [|split; [|split; [|split; [|split]]]].
  - intros log. apply loop_negotiation.
  - intros log r l1 E1. split; [|eapply attempt_format; exact E1].
    unfold createStream; simpl; unfold try_catch. rewrite E1. reflexivity.
  - intros log e1 l1 r l2 E1 E2. split; [|eapply attempt_format; exact E2].
    unfold createStream; simpl; unfold try_catch. rewrite E1, E2. reflexivity.
  - intros log e1 l1 e2 l2 r l3 E1 E2 E3. split; [|eapply attempt_format; exact E3].
    unfold createStream; simpl; unfold try_catch. rewrite E1, E2, E3. reflexivity.
  - reflexivity.
  - apply attempt_requests.
Qed.

(** A server that only speaks lmstudio: ollama is tried first, twice, then
    lmstudio answers and tags the result. *)
Lemma createStream_dialect_order_witness :
  let W := Mock.world (Mock.only_path "/v1/chat/completions" Mock.streaming)
             Mock.no_api in
  let messages := LocalProvider.messages_of (PromptText "list files") in
  @createStream W Mock.endpoint (Some "llama2") messages None []
  = (inr {| stream := Mock.chunks; format := lmstudio |},
     [Fetch (@streaming_request W Mock.endpoint (Some "llama2") messages ollama);
      Fetch (@non_streaming_request W Mock.endpoint (Some "llama2") messages ollama);
      Fetch (@streaming_request W Mock.endpoint (Some "llama2") messages lmstudio)]).
Proof.
  cbv zeta.
  destruct (@createStream_dialect_order
              (Mock.world (Mock.only_path "/v1/chat/completions" Mock.streaming)
                 Mock.no_api)
              Mock.endpoint (Some "llama2")
              (LocalProvider.messages_of (PromptText "list files")))
    as (_ & _ & Hsecond & _).
  eapply Hsecond; vm_compute; reflexivity.
Defined.

(** C3, as the code has it: with no pinned format, when the three attempts
    fail one after the other [createStream] throws one [KnownError] whose
    message names the endpoint and lists the three dialects, and it never
    throws anything else; with a pinned format the failure of the single
    attempt reaches the caller as it is. *)
Theorem createStream_failure `{World}
  (endpoint : string) (model : option string) (messages : list JsVal) (log : Log) :
  (forall e1 l1 e2 l2 e3 l3,
      createStreamWithFormat endpoint model messages ollama log = (inl e1, l1) ->
      createStreamWithFormat endpoint model messages lmstudio l1 = (inl e2, l2) ->
      createStreamWithFormat endpoint model messages openai l2 = (inl e3, l3) ->
      createStream endpoint model messages None log
      = (inl (KnownError (exhausted_message endpoint)), l3))
  /\ (forall e log',
         createStream endpoint model messages None log = (inl e, log') ->
         e = KnownError (exhausted_message endpoint))
  /\ includes endpoint (exhausted_message endpoint) = true
  /\ includes "Ollama, LM Studio, OpenAI-compatible" (exhausted_message endpoint) = true
  /\ (forall f e log',
         createStreamWithFormat endpoint model messages f log = (inl e, log') ->
         createStream endpoint model messages (Some f) log = (inl e, log')).
Proof.
  repeat split.
  - intros e1 l1 e2 l2 e3 l3 E1 E2 E3.
    unfold createStream; simpl; unfold try_catch, throw.
    rewrite E1, E2, E3. reflexivity.
  - intros e log'. apply loop_exhausted.
  - unfold exhausted_message. apply includes_middle.
  - unfold exhausted_message. apply includes_app_r, includes_app_r. reflexivity.
  - intros f e log' E. exact E.
Qed.

Example createStream_ollama_server :
  let W := Mock.world (Mock.only_path "/api/chat" Mock.streaming) Mock.no_api in
  let messages := LocalProvider.messages_of (PromptText "list files") in
  @createStream W Mock.endpoint (Some "llama2") messages None []
  = (inr {| stream := Mock.chunks; format := ollama |},
     [Fetch (@streaming_request W Mock.endpoint (Some "llama2") messages ollama)]).
Proof. vm_compute. reflexivity. Qed.

Example createStream_openai_server :
  let W := Mock.world (Mock.only_path "/chat/completions" Mock.streaming)
             Mock.no_api in
  let messages := LocalProvider.messages_of (PromptText "list files") in
  @createStream W Mock.endpoint (Some "llama2") messages None []
  = (inr {| stream := Mock.chunks; format := openai |},
     [Fetch (@streaming_request W Mock.endpoint (Some "llama2") messages ollama);
      Fetch (@non_streaming_request W Mock.endpoint (Some "llama2") messages ollama);
      Fetch (@streaming_request W Mock.endpoint (Some "llama2") messages lmstudio);
      Fetch (@streaming_request W Mock.endpoint (Some "llama2") messages openai)]).
Proof. vm_compute. reflexivity. Qed.

(** The claim C3 as the specification words it fails on a pinned dialect:
    pinned to lmstudio against a server that answers 500, [createStream]
    throws the plain [Error] of the attempt, which is no [KnownError] and
    does not mention the endpoint. *)
Lemma createStream_pinned_failure_surfaces :
  let W := Mock.world (Mock.always Mock.server_error) Mock.no_api in
  let messages := LocalProvider.messages_of (PromptText "list files") in
  @createStream W Mock.endpoint (Some "llama2") messages (Some lmstudio) []
  = (inl (Error "lmstudio request failed: Internal Server Error"),
     [Fetch (@streaming_request W Mock.endpoint (Some "llama2") messages lmstudio)])
  /\ Error "lmstudio request failed: Internal Server Error"
     <> KnownError (exhausted_message Mock.endpoint)
  /\ includes Mock.endpoint "lmstudio request failed: Internal Server Error" = false.
Proof.
  cbv zeta. split; [vm_compute; reflexivity|].
  split; [discriminate | vm_compute; reflexivity].
Qed.

Lemma createStream_failure_witness :
  let W := Mock.world (Mock.always Mock.server_error) Mock.no_api in
  let messages := LocalProvider.messages_of (PromptText "list files") in
  exists log',
    @createStream W Mock.endpoint (Some "llama2") messages None []
    = (inl (KnownError (exhausted_message Mock.endpoint)), log').
Proof.
  cbv zeta.
  destruct (@createStream_failure
              (Mock.world (Mock.always Mock.server_error) Mock.no_api)
              Mock.endpoint (Some "llama2")
              (LocalProvider.messages_of (PromptText "list files")) [])
    as [Hall _].
  eexists. eapply Hall; vm_compute; reflexivity.
Defined.

(** C4: when the streaming request of the ollama attempt gets a successful
    response with a body whose content type includes neither
    [application/x-ndjson] nor [text/event-stream], the attempt sends a
    second request that differs from the first only by [stream: false] in
    its body; when that one succeeds and its body parses, the result is the
    one-chunk stream ["data: " ++ JSON ++ newline] tagged ollama.  For the
    other two dialects a successful response with a body is the result at
    once, whatever its content type. *)
Theorem ollama_non_stream_fallback `{World}
  (endpoint : string) (model : option string) (messages : list JsVal) :
  (forall log r1,
      let first := streaming_request endpoint model messages ollama in
      let second := non_streaming_request endpoint model messages ollama in
      let log1 := (log ++ [Fetch first])%list in
      let contentType := str_or_default (content_type r1) EmptyString in
      fetch_reply log first = inr r1 ->
      ok r1 = true ->
      has_body r1 = true ->
      includes "application/x-ndjson" contentType = false ->
      includes "text/event-stream" contentType = false ->
      snd (createStreamWithFormat endpoint model messages ollama log)
      = (log1 ++ [Fetch second])%list
      /\ url second = url first
      /\ method second = method first
      /\ headers second = headers first
      /\ body first
         = Some (JSON_stringify
                   (JObj [("model", of_opt_string model);
                          ("messages", JArr messages);
                          ("stream", JBool true);
                          ("options", JObj [("temperature", JNum (7 # 10));
                                            ("top_p", JNum (9 # 10))])]))
      /\ body second
         = Some (JSON_stringify
                   (JObj [("model", of_opt_string model);
                          ("messages", JArr messages);
                          ("stream", JBool false);
                          ("options", JObj [("temperature", JNum (7 # 10));
                                            ("top_p", JNum (9 # 10))])]))
      /\ (forall r2 json,
             fetch_reply log1 second = inr r2 ->
             ok r2 = true ->
             json_result r2 = inr json ->
             createStreamWithFormat endpoint model messages ollama log
             = (inr {| stream := ["data: " ++ JSON_stringify json ++ nl];
                       format := ollama |},
                (log1 ++ [Fetch second])%list)))
  /\ (forall f log r s,
         f <> ollama ->
         fetch_reply log (streaming_request endpoint model messages f) = inr r ->
         ok r = true ->
         res_body r = Some s ->
         createStreamWithFormat endpoint model messages f log
         = (inr {| stream := s; format := f |},
            (log ++ [Fetch (streaming_request endpoint model messages f)])%list)).
Proof.
  split.
  - intros log r1 first second log1 contentType E1 Hok Hbody Hnd Hes.
    subst first second log1 contentType.
    unfold streaming_request, non_streaming_request in *.
    assert (Hrun :
               createStreamWithFormat endpoint model messages ollama log
               = bind (fetch (post (chat_url endpoint ollama)
                                (assign "stream" (JBool false)
                                   (chat_body model messages ollama))))
                   (fun response =>
                      if negb (ok response)
                      then throw (Error (Format_name ollama
                                           ++ " request failed (non-stream): "
                                           ++ statusText response))
                      else bind (response_json response)
                             (fun json => ret {| stream := fakeStream json;
                                                 format := ollama |}))
                   (log ++ [Fetch (post (chat_url endpoint ollama)
                                     (chat_body model messages ollama))])%list).
    { unfold createStreamWithFormat at 1. cbv zeta.
      unfold bind at 1. unfold fetch at 1. rewrite E1, Hok, Hbody. simpl.
      rewrite Hnd, Hes. reflexivity. }
    repeat split; try reflexivity.
    + rewrite Hrun. run. break; reflexivity.
    + intros r2 json E2 Hok2 Hjson. rewrite Hrun. run.
      rewrite E2, Hok2. simpl. rewrite Hjson. reflexivity.
  - intros f log r s Hf E Hok Hbody.
    unfold streaming_request in *. run. cbv zeta. rewrite E, Hok.
    unfold has_body, body_stream. rewrite Hbody.
    destruct f; [contradiction | reflexivity | reflexivity].
Qed.

Lemma ollama_non_stream_fallback_witness :
  let W := Mock.world (Mock.always Mock.buffered) Mock.no_api in
  let messages := LocalProvider.messages_of (PromptText "list files") in
  @createStreamWithFormat W Mock.endpoint (Some "llama2") messages ollama []
  = (inr {| stream := ["data: " ++ Mock.encode Mock.answer ++ nl];
            format := ollama |},
     [Fetch (@streaming_request W Mock.endpoint (Some "llama2") messages ollama);
      Fetch (@non_streaming_request W Mock.endpoint (Some "llama2") messages ollama)])
  /\ @createStreamWithFormat W Mock.endpoint (Some "llama2") messages lmstudio []
     = (inr {| stream := [Mock.encode Mock.answer]; format := lmstudio |},
        [Fetch (@streaming_request W Mock.endpoint (Some "llama2") messages lmstudio)]).
Proof.
  cbv zeta.
  destruct (@ollama_non_stream_fallback
              (Mock.world (Mock.always Mock.buffered) Mock.no_api)
              Mock.endpoint (Some "llama2")
              (LocalProvider.messages_of (PromptText "list files")))
    as [Hollama Hother].
  split.
  - destruct (Hollama [] Mock.buffered eq_refl eq_refl eq_refl eq_refl eq_refl)
      as (_ & _ & _ & _ & _ & _ & Hretry).
    exact (Hretry Mock.buffered Mock.answer eq_refl eq_refl eq_refl).
  - refine (Hother lmstudio [] Mock.buffered [Mock.encode Mock.answer] _
              eq_refl eq_refl eq_refl).
    discriminate.
Defined.

(** ** The local provider *)

Lemma failure_message_endpoint (endpoint : string) (e : Thrown) :
  includes endpoint (LocalProvider.failure_message endpoint e) = true.
Proof. unfold LocalProvider.failure_message. apply includes_middle. Qed.

Lemma failure_message_cause (endpoint : string) (e : Thrown) :
  includes (error_text e) (LocalProvider.failure_message endpoint e) = true.
Proof.
  unfold LocalProvider.failure_message.
  do 5 apply includes_app_r. apply includes_end.
Qed.


(** C8: the model name is the [model] argument when that is a non-empty
    string and the [key] otherwise; the endpoint is
    [http://localhost:11434] when the caller gives none (absent or empty)
    and the caller's otherwise; the negotiation runs on these two, its
    stream is returned as it is, and its failure, which is always the
    aggregated one, is replaced by one [KnownError] whose message names
    the resolved endpoint and ends with the message of that failure. *)
Theorem LocalProvider_generateCompletion_resolution `{World}
  (params : CompletionParams) (log : Log) :
  let localModel := LocalProvider.localModel params in
  let localEndpoint := LocalProvider.localEndpoint (apiEndpoint params) in
  let messages := LocalProvider.messages_of (prompt params) in
  (truthy_str (model params) = true -> localModel = model params)
  /\ (truthy_str (model params) = false -> localModel = key params)
  /\ (truthy_str (apiEndpoint params) = false ->
      localEndpoint = "http://localhost:11434")
  /\ (forall s, apiEndpoint params = Some s -> s <> EmptyString -> localEndpoint = s)
  /\ (forall r log',
         createStream localEndpoint localModel messages None log = (inr r, log') ->
         LocalProvider.generateCompletion params log = (inr (stream r), log'))
  /\ (forall e log',
         createStream localEndpoint localModel messages None log = (inl e, log') ->
         LocalProvider.generateCompletion params log
         = (inl (KnownError (LocalProvider.failure_message localEndpoint e)), log')
         /\ e = KnownError (exhausted_message localEndpoint)
         /\ includes localEndpoint (LocalProvider.failure_message localEndpoint e)
            = true
         /\ includes (error_text e) (LocalProvider.failure_message localEndpoint e)
            = true
         /\ LocalProvider.failure_message localEndpoint e
            = "Failed to connect to local model server at " ++ localEndpoint
              ++ ". Make sure your local model server (Ollama, LM Studio, etc.) is running."
              ++ nl ++ nl
              ++ "Error: Failed to connect to any local model server at "
              ++ localEndpoint
              ++ ". Supported formats: Ollama, LM Studio, OpenAI-compatible"
         /\ includes (exhausted_message localEndpoint)
              (LocalProvider.failure_message localEndpoint e) = true
         /\ includes "Error: Failed to connect to any local model server at "
              (LocalProvider.failure_message localEndpoint e) = true).
Proof.
  cbv zeta. split; [|split; [|split; [|split; [|split]]]].
  - intros Hm. unfold LocalProvider.localModel, str_or. rewrite Hm. reflexivity.
  - intros Hm. unfold LocalProvider.localModel, str_or. rewrite Hm. reflexivity.
  - unfold LocalProvider.localEndpoint, truthy_str, str_or_default.
    destruct (apiEndpoint params) as [s|]; [|reflexivity].
    destruct (s =? EmptyString)%string; [reflexivity | discriminate].
  - intros s Hs Hne. unfold LocalProvider.localEndpoint, str_or_default.
    rewrite Hs. destruct (String.eqb_spec s EmptyString); [contradiction | reflexivity].
  - intros r log' E.
    unfold LocalProvider.generateCompletion, try_catch, bind, ret.
    rewrite E. reflexivity.
  - intros e log' E.
    assert (He : e = KnownError
                       (exhausted_message
                          (LocalProvider.localEndpoint (apiEndpoint params))))
      by (eapply loop_exhausted; exact E).
    assert (Hmsg : LocalProvider.failure_message
                     (LocalProvider.localEndpoint (apiEndpoint params)) e
                   = "Failed to connect to local model server at "
                     ++ LocalProvider.localEndpoint (apiEndpoint params)
                     ++ ". Make sure your local model server (Ollama, LM Studio, etc.) is running."
                     ++ nl ++ nl
                     ++ "Error: Failed to connect to any local model server at "
                     ++ LocalProvider.localEndpoint (apiEndpoint params)
                     ++ ". Supported formats: Ollama, LM Studio, OpenAI-compatible").
    { rewrite He. reflexivity. }
    split; [|split; [|split; [|split; [|split; [|split]]]]].
    + unfold LocalProvider.generateCompletion, try_catch, bind, ret, throw.
      rewrite E. reflexivity.
    + exact He.
    + apply failure_message_endpoint.
    + apply failure_message_cause.
    + exact Hmsg.
    + rewrite He.
      exact (failure_message_cause
               (LocalProvider.localEndpoint (apiEndpoint params))
               (KnownError
                  (exhausted_message
                     (LocalProvider.localEndpoint (apiEndpoint params))))).
    + rewrite Hmsg. do 5 apply includes_app_r. apply includes_self_app.
Qed.

Lemma LocalProvider_generateCompletion_resolution_witness :
  let W := Mock.world (Mock.always Mock.server_error) Mock.no_api in
  truthy_str (model Mock.bare_params) = false
  /\ truthy_str (apiEndpoint Mock.bare_params) = false
  /\ LocalProvider.localModel Mock.bare_params = Some EmptyString
  /\ LocalProvider.localEndpoint (apiEndpoint Mock.bare_params)
     = "http://localhost:11434"
  /\ fst (@LocalProvider.generateCompletion W Mock.bare_params [])
     = inl (KnownError
              ("Failed to connect to local model server at http://localhost:11434. Make sure your local model server (Ollama, LM Studio, etc.) is running."
               ++ nl ++ nl
               ++ "Error: Failed to connect to any local model server at http://localhost:11434. Supported formats: Ollama, LM Studio, OpenAI-compatible")).
Proof.
  cbv zeta.
  destruct (@LocalProvider_generateCompletion_resolution
              (Mock.world (Mock.always Mock.server_error) Mock.no_api)
              Mock.bare_params [])
    as (_ & Hkey & Hdefault & _ & _ & Hfail).
  split; [reflexivity|]. split; [reflexivity|].
  split; [exact (Hkey eq_refl)|]. split; [exact (Hdefault eq_refl)|].
  destruct (Hfail (KnownError (exhausted_message "http://localhost:11434"))
              (snd (@LocalProvider.generateCompletion
                      (Mock.world (Mock.always Mock.server_error) Mock.no_api)
                      Mock.bare_params [])))
    as (E & _ & _ & _ & Hmsg & _); [vm_compute; reflexivity|].
  rewrite E. f_equal. f_equal. rewrite Hmsg. reflexivity.
Defined.



(** ** The remote provider *)

(** C7: [generateCompletion] of the remote provider makes exactly one call,
    whose request has [n] equal to the smaller of the requested count
    (1 when none is given) and 10, hence at most 10; its model is
    [gpt-4o-mini] when the caller gives none and the caller's otherwise; a
    text prompt travels as the single message of role user, a message list
    as it is; and [stream] is set. *)
Theorem OpenAIProvider_request `{World} (params : CompletionParams) (log : Log) :
  let cfg := {| apiKey := key params; basePath := apiEndpoint params |} in
  exists req,
    snd (OpenAIProvider.generateCompletion params log)
    = (log ++ [CreateChatCompletion cfg req])%list
    /\ cc_n req = Z.min (match number params with Some n => n | None => 1 end) 10
    /\ cc_n req <= 10
    /\ (truthy_str (model params) = false -> cc_model req = "gpt-4o-mini")
    /\ (forall m, model params = Some m -> m <> EmptyString -> cc_model req = m)
    /\ (forall text,
           prompt params = PromptText text ->
           cc_messages req = [{| role := user; content := text |}])
    /\ (forall messages,
           prompt params = PromptMessages messages -> cc_messages req = messages)
    /\ cc_stream req = true.
Proof.
  cbv zeta. exists (OpenAIProvider.completion_request params).
  split; [|split; [|split; [|split; [|split; [|split; [|split]]]]]].
  - unfold OpenAIProvider.generateCompletion, try_catch,
      OpenAIProvider.createChatCompletion.
    destruct (openai_reply _ _ _) as [e | s]; [|reflexivity].
    unfold OpenAIProvider.on_error, throw. break; reflexivity.
  - reflexivity.
  - simpl. lia.
  - intros Hm. simpl. unfold truthy_str, str_or_default in *.
    destruct (model params) as [s|]; [|reflexivity].
    destruct (s =? EmptyString)%string; [reflexivity | discriminate].
  - intros m Hm Hne. simpl. rewrite Hm. unfold str_or_default.
    destruct (String.eqb_spec m EmptyString); [contradiction | reflexivity].
  - intros text Hp. simpl. rewrite Hp. reflexivity.
  - intros messages Hp. simpl. rewrite Hp. reflexivity.
  - reflexivity.
Qed.

Lemma OpenAIProvider_request_witness :
  let W := Mock.world Mock.refusing Mock.no_api in
  number Mock.params = Some 50
  /\ truthy_str (model Mock.params) = false
  /\ prompt Mock.params = PromptText "list files"
  /\ exists req,
      snd (@OpenAIProvider.generateCompletion W Mock.params [])
      = [CreateChatCompletion
           {| apiKey := Some "sk-test"; basePath := Some "https://api.openai.com/v1" |}
           req]
      /\ cc_n req = 10
      /\ cc_model req = "gpt-4o-mini"
      /\ cc_messages req = [{| role := user; content := "list files" |}]
      /\ cc_stream req = true.
Proof.
  cbv zeta.
  destruct (@OpenAIProvider_request (Mock.world Mock.refusing Mock.no_api)
              Mock.params [])
    as (req & Hlog & Hn & _ & Hmodel & _ & Htext & _ & Hstream).
  split; [reflexivity|]. split; [reflexivity|]. split; [reflexivity|].
  exists req. split; [exact Hlog|]. split; [exact Hn|].
  split; [exact (Hmodel eq_refl)|]. split; [exact (Htext _ eq_refl)|]. exact Hstream.
Defined.




(** A body that parses to [null] is dropped in the same way, and so is an
    empty one. *)
Example OpenAIProvider_null_body_rethrown :
  let error := Mock.http_failure 503 (DataIncomingMessage ["null"] (Some JNull)) in
  let W := Mock.world Mock.refusing (Mock.rejecting error) in
  fst (@OpenAIProvider.generateCompletion W Mock.params []) = inl (AxiosErr error).
Proof. reflexivity. Qed.

Example OpenAIProvider_empty_body_rethrown :
  let error := Mock.http_failure 500 (DataIncomingMessage [] None) in
  let W := Mock.world Mock.refusing (Mock.rejecting error) in
  fst (@OpenAIProvider.generateCompletion W Mock.params []) = inl (AxiosErr error).
Proof. reflexivity. Qed.

Example OpenAIProvider_raw_body :
  let error := Mock.http_failure 500 (DataIncomingMessage ["oo"; "ps"] None) in
  let W := Mock.world Mock.refusing (Mock.rejecting error) in
  fst (@OpenAIProvider.generateCompletion W Mock.params [])
  = inl (KnownError
           ("Request to OpenAI failed with status 500:" ++ nl ++ nl
            ++ Mock.quote "oops" ++ nl)).
Proof. vm_compute. reflexivity. Qed.

(** ** Model listing *)

Section Listing.
Context `{World}.

Lemma probe_result (p : ModelsProbe) (log : Log) :
  exists r : option (list ListedModel),
    probe p log = (inr r, (log ++ [Fetch (get (probe_url p))])%list).
Proof.
  unfold probe, response_json, fetch, bind, try_catch, ret, throw, lift.
  break; pairs; eauto.
Qed.

Lemma listModels_loop_total (formats : list ModelsProbe) (log : Log) :
  exists models log', listModels_loop formats log = (inr models, log').
Proof.
  revert log. induction formats as [|p rest IH]; intros log; simpl.
  - unfold ret. eauto.
  - unfold bind.
    destruct (probe_result p log) as [[ms|] ->]; [unfold ret; eauto | apply IH].
Qed.

Lemma transform_missing (list_key item_key : string) (fields : list (string * JsVal)) :
  lookup_field list_key fields = None ->
  transform list_key item_key (JObj fields) = inr [].
Proof. intros Hl. unfold transform. simpl. rewrite Hl. reflexivity. Qed.

Lemma getModels_never_raises (key apiEndpoint : option string) (log : Log) :
  exists models log', LocalProvider.getModels key apiEndpoint log = (inr models, log').
Proof.
  unfold LocalProvider.getModels, try_catch, bind, ret.
  destruct (listModels_loop_total
              (models_formats (LocalProvider.localEndpoint apiEndpoint)) log)
    as (ms & l & E).
  unfold listModels. rewrite E. eauto.
Qed.

(** Whatever makes the three probes fail, the local provider answers with
    the empty list: the [catch] that holds the built-in catalog never runs. *)
Lemma getModels_empty_when_probes_fail
  (key apiEndpoint : option string) (log : Log) (p1 p2 p3 : ModelsProbe)
  (l1 l2 l3 : Log) :
  models_formats (LocalProvider.localEndpoint apiEndpoint) = [p1; p2; p3] ->
  probe p1 log = (inr None, l1) ->
  probe p2 l1 = (inr None, l2) ->
  probe p3 l2 = (inr None, l3) ->
  LocalProvider.getModels key apiEndpoint log = (inr [], l3).
Proof.
  intros Ef E1 E2 E3.
  unfold LocalProvider.getModels, try_catch, listModels. rewrite Ef. simpl.
  unfold bind. rewrite E1, E2, E3. reflexivity.
Qed.

End Listing.

(** C9: [listModels] always returns a list.  A probe whose [fetch] rejects,
    whose status is not 2xx, whose body is not JSON or whose transform
    throws is skipped; a probe whose JSON object lacks the list it reads
    ends the function with the empty list; and when the three probes are
    skipped the function returns the empty list. *)
Theorem listModels_never_raises `{World} (endpoint : string) (log : Log) :
  (exists models log', listModels endpoint log = (inr models, log'))
  /\ (forall p l,
         let l' := (l ++ [Fetch (get (probe_url p))])%list in
         (forall e, fetch_reply l (get (probe_url p)) = inl e ->
                    probe p l = (inr None, l'))
         /\ (forall r, fetch_reply l (get (probe_url p)) = inr r ->
                       ok r = false ->
                       probe p l = (inr None, l'))
         /\ (forall r e, fetch_reply l (get (probe_url p)) = inr r ->
                         ok r = true ->
                         json_result r = inl e ->
                         probe p l = (inr None, l'))
         /\ (forall r data e, fetch_reply l (get (probe_url p)) = inr r ->
                              ok r = true ->
                              json_result r = inr data ->
                              probe_transform p data = inl e ->
                              probe p l = (inr None, l'))
         /\ (forall r fields list_key item_key,
                fetch_reply l (get (probe_url p)) = inr r ->
                ok r = true ->
                json_result r = inr (JObj fields) ->
                probe_transform p = transform list_key item_key ->
                lookup_field list_key fields = None ->
                probe p l = (inr (Some []), l')))
  /\ (forall p1 p2 p3 l1 l2 l3,
         models_formats endpoint = [p1; p2; p3] ->
         probe p1 log = (inr None, l1) ->
         probe p2 l1 = (inr None, l2) ->
         probe p3 l2 = (inr None, l3) ->
         listModels endpoint log = (inr [], l3)).
Proof.
  split; [apply listModels_loop_total|]. split.
  - intros p l l'. subst l'.
    unfold probe, response_json, fetch, bind, try_catch, ret, throw, lift.
    split; [|split; [|split; [|split]]].
    + intros e ->. reflexivity.
    + intros r -> ->. reflexivity.
    + intros r e -> -> ->. reflexivity.
    + intros r data e -> -> -> ->. reflexivity.
    + intros r fields list_key item_key -> -> -> -> Hm.
      rewrite (transform_missing _ _ _ Hm). reflexivity.
  - intros p1 p2 p3 l1 l2 l3 Ef E1 E2 E3.
    unfold listModels. rewrite Ef. simpl. unfold bind.
    rewrite E1, E2, E3. reflexivity.
Qed.

Lemma listModels_never_raises_witness :
  let W := Mock.world Mock.refusing Mock.no_api in
  @listModels W Mock.endpoint []
  = (inr [],
     [Fetch (get "http://localhost:11434/api/tags");
      Fetch (get "http://localhost:11434/v1/models");
      Fetch (get "http://localhost:11434/models")]).
Proof.
  cbv zeta.
  destruct (@listModels_never_raises (Mock.world Mock.refusing Mock.no_api)
              Mock.endpoint [])
    as (_ & _ & Hall).
  eapply Hall; vm_compute; reflexivity.
Defined.

Example listModels_missing_field :
  let W := Mock.world (Mock.always Mock.empty_object) Mock.no_api in
  @listModels W Mock.endpoint []
  = (inr [], [Fetch (get "http://localhost:11434/api/tags")]).
Proof. vm_compute. reflexivity. Qed.

(** C1 fails on the code: with nothing listening on the endpoint the three
    probes fail, and [getModels] of the local provider returns the empty
    list, not the fourteen-entry built-in catalog that holds [llama2] and
    [codellama]; the same happens when every probe is answered with a 500. *)
Theorem getModels_all_probes_fail :
  let W := Mock.world Mock.refusing Mock.no_api in
  let W500 := Mock.world (Mock.always Mock.server_error) Mock.no_api in
  @LocalProvider.getModels W None (Some Mock.endpoint) []
  = (inr [],
     [Fetch (get "http://localhost:11434/api/tags");
      Fetch (get "http://localhost:11434/v1/models");
      Fetch (get "http://localhost:11434/models")])
  /\ fst (@LocalProvider.getModels W500 None (Some Mock.endpoint) []) = inr []
  /\ length (@LocalProvider.getDefaultModels W) = 14%nat
  /\ In (JStr "llama2") (map id (@LocalProvider.getDefaultModels W))
  /\ In (JStr "codellama") (map id (@LocalProvider.getDefaultModels W)).
Proof.
  cbv zeta. split; [vm_compute; reflexivity|].
  split; [vm_compute; reflexivity|].
  split; [reflexivity|]. split; simpl; auto 10.
Qed.

(** ** The registry *)

Lemma getProvider_registered :
  getProvider "openai" module_init = (inr (Instance 0), module_init)
  /\ getProvider "local" module_init = (inr (Instance 1), module_init)
  /\ provider_class module_init (Instance 0) = Some OpenAIProviderClass
  /\ provider_class module_init (Instance 1) = Some LocalProviderClass
  /\ Instance 0 <> Instance 1
  /\ getProvider "gemini" module_init
     = (inl (KnownError "Unknown provider: gemini"), module_init).
Proof. repeat split; discriminate. Qed.

(** A lookup allocates nothing: the instances are the two built when the
    module loads, on every call. *)
Lemma getProvider_pure (name : string) (st : ModuleState) :
  snd (getProvider name st) = st.
Proof. unfold getProvider. destruct (read_property st name); reflexivity. Qed.

(** A name that is neither registered nor inherited is refused. *)
Lemma getProvider_unknown (name : string) (st : ModuleState) :
  own_property name (providers st) = None ->
  mem_string name Object_prototype = false ->
  getProvider name st = (inl (KnownError ("Unknown provider: " ++ name)), st).
Proof.
  intros Ho Hp. unfold getProvider, read_property. rewrite Ho, Hp. reflexivity.
Qed.

(** C6 fails on the code for a name that [Object.prototype] defines:
    [constructor] is not registered, yet the property read finds the
    inherited member, which is truthy, so [getProvider] returns it instead
    of throwing. *)
Theorem getProvider_inherited_member :
  getProvider "constructor" module_init
  = (inr (Inherited "constructor"), module_init)
  /\ own_property "constructor" (providers module_init) = None
  /\ provider_class module_init (Inherited "constructor") = None.
Proof. split; [|split]; reflexivity. Qed.

(** * Further properties *)

(** ** The negotiator, attempt by attempt *)

Section NegotiatorMore.
Context `{World}.
Variables (endpoint : string) (model : option string) (messages : list JsVal).

Abbreviation attempt := (createStreamWithFormat endpoint model messages).
Abbreviation first := (streaming_request endpoint model messages).
Abbreviation second := (non_streaming_request endpoint model messages).

Lemma attempt_rejected f log e :
  fetch_reply log (first f) = inl e ->
  attempt f log = (inl e, (log ++ [Fetch (first f)])%list).
Proof.
  unfold streaming_request. intros E. run. cbv zeta. rewrite E. reflexivity.
Qed.

Lemma attempt_accepted f log r :
  fetch_reply log (first f) = inr r ->
  accepts_stream f r = true ->
  attempt f log
  = (inr {| stream := body_stream r; format := f |}, (log ++ [Fetch (first f)])%list).
Proof.
  unfold streaming_request, accepts_stream. intros E Ha. run. cbv zeta. rewrite E.
  destruct (ok r), (has_body r); simpl in Ha; try discriminate.
  destruct f; simpl in *; try reflexivity.
  destruct (includes "application/x-ndjson" _); simpl in *; [reflexivity|].
  rewrite Ha. reflexivity.
Qed.

Lemma attempt_other_failed f log r :
  f <> ollama ->
  fetch_reply log (first f) = inr r ->
  accepts_stream f r = false ->
  attempt f log
  = (inl (Error (Format_name f ++ " request failed: " ++ statusText r)),
     (log ++ [Fetch (first f)])%list).
Proof.
  unfold streaming_request, accepts_stream. intros Hf E Ha. run. cbv zeta. rewrite E.
  destruct f; [contradiction | |]; simpl in *;
    rewrite andb_true_r in Ha; rewrite andb_false_r; rewrite Ha; reflexivity.
Qed.

Lemma attempt_ollama_retry log r :
  fetch_reply log (first ollama) = inr r ->
  accepts_stream ollama r = false ->
  attempt ollama log
  = let log1 := (log ++ [Fetch (first ollama)])%list in
    let log2 := (log1 ++ [Fetch (second ollama)])%list in
    match fetch_reply log1 (second ollama) with
    | inl e => (inl e, log2)
    | inr r2 =>
        if ok r2 then
          match json_result r2 with
          | inl e => (inl e, log2)
          | inr json => (inr {| stream := fakeStream json; format := ollama |}, log2)
          end
        else (inl (Error ("ollama request failed (non-stream): " ++ statusText r2)),
              log2)
    end.
Proof.
  unfold streaming_request, non_streaming_request, accepts_stream.
  intros E Ha. run. cbv zeta. rewrite E.
  cbn [Format_eqb negb orb] in *. rewrite andb_true_r.
  destruct (ok r && has_body r); cbn [andb] in Ha; [rewrite Ha|]; cbv iota;
    repeat match goal with
           | |- context [match ?x with _ => _ end] => destruct x eqn:?
           end; simpl; try reflexivity; try discriminate.
Qed.

Lemma first_is_chat_post f : is_chat_post endpoint (Fetch (first f)).
Proof. exists (first f), f. repeat split. discriminate. Qed.

Lemma second_is_chat_post f : is_chat_post endpoint (Fetch (second f)).
Proof. exists (second f), f. repeat split. discriminate. Qed.

Lemma attempt_calls_exact f log :
  exists calls,
    snd (attempt f log) = (log ++ calls)%list
    /\ (1 <= length calls <= 2)%nat
    /\ (f <> ollama -> length calls = 1%nat)
    /\ Forall (is_chat_post endpoint) calls.
Proof.
  destruct (attempt_log endpoint model messages f log) as [E | [Hf E]].
  - exists [Fetch (first f)]. repeat split; simpl; auto.
    repeat constructor. apply first_is_chat_post.
  - exists [Fetch (first f); Fetch (second f)]. repeat split; simpl; auto.
    + intros Hn. contradiction.
    + repeat constructor; [apply first_is_chat_post | apply second_is_chat_post].
Qed.

Lemma attempt_after_2xx f log r log' :
  attempt f log = (inr r, log') ->
  exists before q resp,
    log' = (before ++ [Fetch q])%list
    /\ url q = chat_url endpoint f
    /\ fetch_reply before q = inr resp
    /\ ok resp = true.
Proof.
  intros E.
  destruct (fetch_reply log (first f)) as [e | r1] eqn:E1.
  - rewrite (attempt_rejected f log e E1) in E. discriminate.
  - destruct (accepts_stream f r1) eqn:Ha.
    + rewrite (attempt_accepted f log r1 E1 Ha) in E. inversion E; subst.
      exists log, (first f), r1. repeat split; [exact E1|].
      unfold accepts_stream in Ha. destruct (ok r1); [reflexivity | discriminate].
    + destruct f.
      * rewrite (attempt_ollama_retry log r1 E1 Ha) in E. cbv zeta in E.
        destruct (fetch_reply _ (second ollama)) as [e | r2] eqn:E2; [discriminate|].
        destruct (ok r2) eqn:Hok2; [|discriminate].
        destruct (json_result r2); [discriminate|]. inversion E; subst.
        exists (log ++ [Fetch (first ollama)])%list, (second ollama), r2.
        repeat split; assumption.
      * rewrite (attempt_other_failed openai log r1) in E;
          [discriminate | discriminate | exact E1 | exact Ha].
      * rewrite (attempt_other_failed lmstudio log r1) in E;
          [discriminate | discriminate | exact E1 | exact Ha].
Qed.

End NegotiatorMore.

(** X1: an ollama answer that is 2xx, has a body and declares
    [application/x-ndjson] or [text/event-stream] is the result of the
    unpinned negotiation as it is: the body is returned untouched, tagged
    ollama, after this single request; no retry and no other dialect. *)
Theorem ollama_stream_passthrough `{World}
  (endpoint : string) (model : option string) (messages : list JsVal)
  (log : Log) (r : Response) (s : Stream) :
  let first := streaming_request endpoint model messages ollama in
  let contentType := str_or_default (content_type r) EmptyString in
  fetch_reply log first = inr r ->
  ok r = true ->
  res_body r = Some s ->
  includes "application/x-ndjson" contentType = true
  \/ includes "text/event-stream" contentType = true ->
  createStream endpoint model messages None log
  = (inr {| stream := s; format := ollama |}, (log ++ [Fetch first])%list).
Proof.
  cbv zeta. intros E Hok Hbody Hct.
  unfold createStream. simpl. unfold try_catch.
  rewrite (attempt_accepted endpoint model messages ollama log r E).
  - unfold body_stream. rewrite Hbody. reflexivity.
  - unfold accepts_stream, has_body. rewrite Hok, Hbody. simpl.
    destruct Hct as [-> | ->]; [reflexivity | apply orb_true_r].
Qed.

(** X2: [createStream] sends between one and four requests, at
    most two when a dialect is pinned and exactly one when the pinned
    dialect is not ollama; every one of them is a POST to a chat path of
    the endpoint with [Content-Type: application/json] as its only header
    and a body, so the key never travels in a header. *)
Theorem createStream_request_count `{World}
  (endpoint : string) (model : option string) (messages : list JsVal)
  (fmt : option Format) (log : Log) :
  exists calls,
    snd (createStream endpoint model messages fmt log) = (log ++ calls)%list
    /\ (1 <= length calls <= 4)%nat
    /\ (forall f, fmt = Some f ->
                  (length calls <= 2)%nat /\ (f <> ollama -> length calls = 1%nat))
    /\ Forall (is_chat_post endpoint) calls.
Proof.
  destruct fmt as [f|].
  - destruct (attempt_calls_exact endpoint model messages f log)
      as (calls & E & Hlen & Hone & All).
    exists calls. split; [exact E|]. split; [lia|]. split; [|exact All].
    intros g Hg. inversion Hg; subst. split; [lia | exact Hone].
  - unfold createStream. simpl. unfold try_catch, throw.
    destruct (attempt_calls_exact endpoint model messages ollama log)
      as (c1 & E1 & L1 & _ & A1).
    destruct (createStreamWithFormat endpoint model messages ollama log)
      as [[e1 | r1] l1]; simpl in E1; subst l1.
    2:{ exists c1. split; [reflexivity|]. split; [lia|]. split; [|exact A1].
        intros; discriminate. }
    destruct (attempt_calls_exact endpoint model messages lmstudio (log ++ c1)%list)
      as (c2 & E2 & L2 & O2 & A2).
    specialize (O2 ltac:(discriminate)).
    destruct (createStreamWithFormat endpoint model messages lmstudio _)
      as [[e2 | r2] l2]; simpl in E2; subst l2.
    2:{ exists (c1 ++ c2)%list. rewrite app_assoc, length_app.
        split; [reflexivity|]. split; [lia|]. split; [intros; discriminate|].
        apply Forall_app; auto. }
    destruct (attempt_calls_exact endpoint model messages openai
                ((log ++ c1) ++ c2)%list)
      as (c3 & E3 & L3 & O3 & A3).
    specialize (O3 ltac:(discriminate)).
    exists (c1 ++ c2 ++ c3)%list.
    assert (Hlog : forall o : Outcome LocalStreamResponse,
               snd (o, (((log ++ c1) ++ c2) ++ c3)%list)
               = (log ++ c1 ++ c2 ++ c3)%list).
    { intros o. simpl. rewrite <- !app_assoc. reflexivity. }
    destruct (createStreamWithFormat endpoint model messages openai _)
      as [[e3 | r3] l3]; simpl in E3; subst l3;
      (split; [apply Hlog|]); rewrite !length_app;
      (split; [lia|]); (split; [intros; discriminate|]);
      repeat (apply Forall_app; split); auto.
Qed.


Lemma loop_after_2xx `{World}
  (endpoint : string) (model : option string) (messages : list JsVal)
  (formats : list Format) (log : Log) (r : LocalStreamResponse) (log' : Log) :
  createStream_loop endpoint model messages formats log = (inr r, log') ->
  exists before q resp,
    log' = (before ++ [Fetch q])%list
    /\ url q = chat_url endpoint (format r)
    /\ fetch_reply before q = inr resp
    /\ ok resp = true.
Proof.
  revert log. induction formats as [|f rest IH]; intros log; simpl.
  - unfold throw. discriminate.
  - unfold try_catch.
    destruct (createStreamWithFormat endpoint model messages f log)
      as [[e | r1] l1] eqn:E; [apply IH|].
    intros Er. inversion Er; subst.
    rewrite (attempt_format _ _ _ _ _ _ _ E).
    eapply attempt_after_2xx. exact E.
Qed.

(** X3: whenever [createStream] returns a stream, the last request
    it sent went to the chat path of the dialect the result is tagged with
    and was answered with a 2xx response; a stream never comes out of a
    rejected or non-2xx exchange. *)
Theorem stream_only_after_2xx `{World}
  (endpoint : string) (model : option string) (messages : list JsVal)
  (fmt : option Format) (log : Log) (r : LocalStreamResponse) (log' : Log) :
  createStream endpoint model messages fmt log = (inr r, log') ->
  exists before q resp,
    log' = (before ++ [Fetch q])%list
    /\ url q = chat_url endpoint (format r)
    /\ fetch_reply before q = inr resp
    /\ ok resp = true.
Proof.
  destruct fmt as [f|]; unfold createStream.
  - intros E. rewrite (attempt_format _ _ _ _ _ _ _ E).
    eapply attempt_after_2xx. exact E.
  - apply loop_after_2xx.
Qed.

(** X4: what a pinned [createStream] can throw.  Either the
    rejection of the first [fetch], after one request; or, for lmstudio and
    openai, [Error "<format> request failed: <statusText>"] with the status
    text of the only response; or, for ollama, after the retry, the
    rejection of the second [fetch], [Error "ollama request failed
    (non-stream): <statusText>"] with the status text of the second
    response, or the error of parsing its body. *)
Theorem pinned_failure_classes `{World}
  (endpoint : string) (model : option string) (messages : list JsVal)
  (f : Format) (log : Log) (e : Thrown) (log' : Log) :
  let first := streaming_request endpoint model messages f in
  let second := non_streaming_request endpoint model messages f in
  let log1 := (log ++ [Fetch first])%list in
  createStream endpoint model messages (Some f) log = (inl e, log') ->
  (fetch_reply log first = inl e /\ log' = log1)
  \/ (f <> ollama
      /\ log' = log1
      /\ exists r1,
          fetch_reply log first = inr r1
          /\ e = Error (Format_name f ++ " request failed: " ++ statusText r1))
  \/ (f = ollama
      /\ log' = (log1 ++ [Fetch second])%list
      /\ (fetch_reply log1 second = inl e
          \/ exists r2,
              fetch_reply log1 second = inr r2
              /\ ((ok r2 = false
                   /\ e = Error ("ollama request failed (non-stream): "
                                   ++ statusText r2))
                  \/ (ok r2 = true /\ json_result r2 = inl e)))).
Proof.
  cbv zeta. simpl. intros E.
  destruct (fetch_reply log (streaming_request endpoint model messages f))
    as [e1 | r1] eqn:E1.
  - rewrite (attempt_rejected _ _ _ f log e1 E1) in E. inversion E; subst. auto.
  - destruct (accepts_stream f r1) eqn:Ha.
    + rewrite (attempt_accepted _ _ _ f log r1 E1 Ha) in E. discriminate.
    + destruct (Format_eqb f ollama) eqn:Hf.
      * assert (f = ollama) by (destruct f; [reflexivity | discriminate | discriminate]).
        subst f. right. right. split; [reflexivity|].
        rewrite (attempt_ollama_retry _ _ _ log r1 E1 Ha) in E. cbv zeta in E.
        destruct (fetch_reply _ (non_streaming_request endpoint model messages ollama))
          as [e2 | r2] eqn:E2.
        { inversion E; subst. auto. }
        destruct (ok r2) eqn:Hok2.
        { destruct (json_result r2) eqn:Hj; [|discriminate].
          inversion E; subst. split; [reflexivity|]. right. exists r2. auto. }
        inversion E; subst. split; [reflexivity|]. right. exists r2. auto.
      * assert (Hne : f <> ollama) by (intros ->; discriminate).
        rewrite (attempt_other_failed _ _ _ f log r1 Hne E1 Ha) in E.
        inversion E; subst. right. left. repeat split; eauto.
Qed.

(** X5: the retry of ollama does not need a 2xx first answer: when
    the streaming request is answered with an error status, or with no
    body, the request is sent again with [stream: false], and a 2xx JSON
    answer to it gives the one-chunk stream tagged ollama. *)
Theorem ollama_retry_after_refusal `{World}
  (endpoint : string) (model : option string) (messages : list JsVal)
  (log : Log) (r1 r2 : Response) (json : JsVal) :
  let first := streaming_request endpoint model messages ollama in
  let second := non_streaming_request endpoint model messages ollama in
  let log1 := (log ++ [Fetch first])%list in
  fetch_reply log first = inr r1 ->
  ok r1 = false \/ res_body r1 = None ->
  fetch_reply log1 second = inr r2 ->
  ok r2 = true ->
  json_result r2 = inr json ->
  createStream endpoint model messages None log
  = (inr {| stream := ["data: " ++ JSON_stringify json ++ nl]; format := ollama |},
     (log1 ++ [Fetch second])%list).
Proof.
  cbv zeta. intros E1 Hr E2 Hok2 Hj.
  unfold createStream. simpl. unfold try_catch.
  rewrite (attempt_ollama_retry _ _ _ log r1 E1).
  - cbv zeta. rewrite E2, Hok2, Hj. reflexivity.
  - unfold accepts_stream, has_body.
    destruct Hr as [-> | ->]; [reflexivity | rewrite andb_false_r; reflexivity].
Qed.

(** X6: when every [fetch] rejects, the unpinned negotiation sends
    exactly three requests, the streaming request of each dialect in order
    (a rejected request is not retried, not even for ollama), and throws
    the aggregated error. *)
Theorem createStream_server_down `{World}
  (endpoint : string) (model : option string) (messages : list JsVal) (log : Log) :
  (forall l q, exists e, fetch_reply l q = inl e) ->
  createStream endpoint model messages None log
  = (inl (KnownError (exhausted_message endpoint)),
     (log ++ [Fetch (streaming_request endpoint model messages ollama);
              Fetch (streaming_request endpoint model messages lmstudio);
              Fetch (streaming_request endpoint model messages openai)])%list).
Proof.
  intros Hdown. unfold createStream. simpl. unfold try_catch, throw.
  destruct (Hdown log (streaming_request endpoint model messages ollama)) as [e1 E1].
  rewrite (attempt_rejected _ _ _ ollama log e1 E1).
  destruct (Hdown (log ++ [Fetch (streaming_request endpoint model messages ollama)])%list
              (streaming_request endpoint model messages lmstudio)) as [e2 E2].
  rewrite (attempt_rejected _ _ _ lmstudio _ e2 E2).
  destruct (Hdown ((log ++ [Fetch (streaming_request endpoint model messages ollama)])
                     ++ [Fetch (streaming_request endpoint model messages lmstudio)])%list
              (streaming_request endpoint model messages openai)) as [e3 E3].
  rewrite (attempt_rejected _ _ _ openai _ e3 E3).
  rewrite <- !app_assoc. reflexivity.
Qed.

(** ** Model listing, answer by answer *)

Section ListingMore.
Context `{World}.

Lemma item_throws_iff (item_key : string) (m : JsVal) :
  (exists e, obind (get_prop m item_key) (fun id =>
             obind (get_prop m item_key) (fun name =>
               inr {| lm_id := id; lm_name := name |})) = inl e)
  <-> nullish m = true.
Proof.
  destruct m; simpl; split; intros Hx; try reflexivity; try discriminate;
    try (destruct Hx; discriminate); eauto.
  destruct (lookup_field item_key fields); simpl in Hx; destruct Hx; discriminate.
Qed.

Lemma map_outcome_throws_iff {A B} (f : A -> Outcome B) (p : A -> bool) (l : list A) :
  (forall x, (exists e, f x = inl e) <-> p x = true) ->
  (exists e, map_outcome f l = inl e) <-> existsb p l = true.
Proof.
  intros Hf. induction l as [|x rest IH]; simpl.
  - split; [intros [e He]; discriminate | discriminate].
  - destruct (f x) as [e | y] eqn:Ex; simpl.
    + assert (p x = true) as -> by (apply Hf; eauto). simpl. split; eauto.
    + assert (p x = false) as ->.
      { destruct (p x) eqn:Hp; [|reflexivity].
        apply Hf in Hp. destruct Hp as [e He]. congruence. }
      simpl. rewrite <- IH.
      destruct (map_outcome f rest) as [e | ys]; simpl; split; intros [e' He'];
        try discriminate; eauto.
Qed.

Lemma map_outcome_names (item_key : string) (items names : list JsVal) :
  Forall2 (fun item name => get_prop item item_key = inr name) items names ->
  map_outcome (fun m => obind (get_prop m item_key) (fun id =>
                        obind (get_prop m item_key) (fun name =>
                          inr {| lm_id := id; lm_name := name |}))) items
  = inr (map (fun n => {| lm_id := n; lm_name := n |}) names).
Proof.
  induction 1 as [|item name items names Hi _ IH]; simpl; [reflexivity|].
  rewrite Hi. simpl. rewrite IH. reflexivity.
Qed.

Lemma transform_names (list_key item_key : string)
  (fields : list (string * JsVal)) (items names : list JsVal) :
  lookup_field list_key fields = Some (JArr items) ->
  Forall2 (fun item name => get_prop item item_key = inr name) items names ->
  transform list_key item_key (JObj fields)
  = inr (map (fun n => {| lm_id := n; lm_name := n |}) names).
Proof.
  intros Hl Hn. unfold transform. simpl. rewrite Hl. simpl.
  apply map_outcome_names. exact Hn.
Qed.

Lemma getModels_convert (key apiEndpoint : option string) (log : Log)
  (ms : list ListedModel) (l : Log) :
  listModels (LocalProvider.localEndpoint apiEndpoint) log = (inr ms, l) ->
  LocalProvider.getModels key apiEndpoint log
  = (inr (map (fun model => {| id := js_or (lm_id model) (lm_name model);
                               object := "model";
                               created := Date_now;
                               owned_by := "local" |}) ms), l).
Proof.
  intros E. unfold LocalProvider.getModels, try_catch, bind, ret. rewrite E. reflexivity.
Qed.

Lemma js_or_same (v : JsVal) : js_or v v = v.
Proof. unfold js_or. destruct (truthy v); reflexivity. Qed.

Lemma probe_run (p : ModelsProbe) (log : Log) :
  probe p log
  = (inr (probe_answer (fetch_reply log (get (probe_url p))) (probe_transform p)),
     (log ++ [Fetch (get (probe_url p))])%list).
Proof.
  unfold probe, probe_answer, response_json, fetch, bind, try_catch, ret, throw, lift.
  destruct (fetch_reply log (get (probe_url p))) as [e | response]; [reflexivity|].
  destruct (ok response); [|reflexivity].
  destruct (json_result response) as [e | data]; cbn [obind]; [reflexivity|].
  destruct (probe_transform p data); reflexivity.
Qed.

End ListingMore.

(** X7: a transform of [listModels] throws exactly when the JSON
    document is [null], or the list it reads is present but not an array,
    or the array holds a [null] entry; in every other case it returns a
    list. *)
Theorem transform_throws_iff (list_key item_key : string) (data : JsVal) :
  (exists e, transform list_key item_key data = inl e)
  <-> nullish data = true
      \/ exists entries,
          get_prop data list_key = inr entries
          /\ ((nullish entries = false /\ is_array entries = false)
              \/ exists items, entries = JArr items /\ existsb nullish items = true).
Proof.
  unfold transform.
  destruct (get_prop data list_key) as [e | entries] eqn:Eg; simpl.
  - split; [intros _ | eauto].
    left. destruct data; simpl in Eg; try discriminate; try reflexivity.
    destruct (lookup_field list_key fields); discriminate.
  - assert (Hd : nullish data = false).
    { destruct data; simpl in Eg; try discriminate; reflexivity. }
    rewrite Hd. destruct entries as [| | b | q | s | items | fields]; simpl.
    1,2: split; [intros [e He]; discriminate
                | intros [Hx | (v & Hv & [[Hn _] | (items & Hi & _)])];
                  [discriminate | injection Hv as Hv; subst v; discriminate
                  | injection Hv as Hv; subst v; discriminate]].
    1,2,3,5: split; [intros _; right; eexists; split; [reflexivity|]; left; auto
                    | eauto].
    rewrite (map_outcome_throws_iff _ nullish items (item_throws_iff item_key)).
    split.
    + intros Hx. right. eexists. split; [reflexivity|]. right. eauto.
    + intros [Hx | (v & Hv & [[_ Ha] | (items' & Hi & Hx)])]; [discriminate | |].
      * injection Hv as Hv; subst v. discriminate.
      * injection Hv as Hv; subst v. injection Hi as Hi; subst items'. exact Hx.
Qed.

(** X8: [getModels] of the local provider never throws and its
    result is always the conversion of what [listModels] returned, entry
    by entry ([id] is [id || name], [object] is [model], [owned_by] is
    [local]); the built-in catalog is never part of it. *)
Theorem getModels_never_catalog `{World}
  (key apiEndpoint : option string) (log : Log) :
  exists listed models log',
    listModels (LocalProvider.localEndpoint apiEndpoint) log = (inr listed, log')
    /\ LocalProvider.getModels key apiEndpoint log = (inr models, log')
    /\ map id models = map (fun m => js_or (lm_id m) (lm_name m)) listed
    /\ Forall (fun m => object m = "model" /\ owned_by m = "local"
                        /\ created m = Date_now) models.
Proof.
  destruct (listModels_loop_total
              (models_formats (LocalProvider.localEndpoint apiEndpoint)) log)
    as (listed & log' & E).
  exists listed. eexists. exists log'. split; [exact E|].
  split; [apply getModels_convert; exact E|]. split.
  - rewrite map_map. reflexivity.
  - apply Forall_map. apply Forall_forall. intros m _. simpl. auto.
Qed.

(** X9: against an ollama whose [/api/tags] answers 2xx with
    [{models: [...]}], [getModels] returns one model per entry, in order,
    with the entry's [name] as id, after this single request. *)
Theorem getModels_ollama_names `{World}
  (key apiEndpoint : option string) (log : Log) (r : Response)
  (fields : list (string * JsVal)) (items names : list JsVal) :
  let endpoint := LocalProvider.localEndpoint apiEndpoint in
  fetch_reply log (get (endpoint ++ "/api/tags")) = inr r ->
  ok r = true ->
  json_result r = inr (JObj fields) ->
  lookup_field "models" fields = Some (JArr items) ->
  Forall2 (fun item name => get_prop item "name" = inr name) items names ->
  exists models,
    LocalProvider.getModels key apiEndpoint log
    = (inr models, (log ++ [Fetch (get (endpoint ++ "/api/tags"))])%list)
    /\ map id models = names.
Proof.
  cbv zeta. intros E Hok Hj Hl Hn. eexists. split.
  - apply getModels_convert. unfold listModels. simpl.
    unfold bind at 1. unfold probe, response_json, fetch, bind, try_catch, ret, lift.
    simpl. rewrite E, Hok, Hj. rewrite (transform_names _ _ _ _ _ Hl Hn). reflexivity.
  - rewrite !map_map. simpl.
    rewrite <- (map_id names) at 2. apply map_ext. intros n. apply js_or_same.
Qed.

(** X10: when [/api/tags] is answered with a non-2xx status and
    [/v1/models] with [{data: [...]}], [getModels] returns one model per
    entry with the entry's [id], after these two requests. *)
Theorem getModels_openai_compatible_ids `{World}
  (key apiEndpoint : option string) (log : Log) (r0 r : Response)
  (fields : list (string * JsVal)) (items ids : list JsVal) :
  let endpoint := LocalProvider.localEndpoint apiEndpoint in
  let log1 := (log ++ [Fetch (get (endpoint ++ "/api/tags"))])%list in
  fetch_reply log (get (endpoint ++ "/api/tags")) = inr r0 ->
  ok r0 = false ->
  fetch_reply log1 (get (endpoint ++ "/v1/models")) = inr r ->
  ok r = true ->
  json_result r = inr (JObj fields) ->
  lookup_field "data" fields = Some (JArr items) ->
  Forall2 (fun item i => get_prop item "id" = inr i) items ids ->
  exists models,
    LocalProvider.getModels key apiEndpoint log
    = (inr models, (log1 ++ [Fetch (get (endpoint ++ "/v1/models"))])%list)
    /\ map id models = ids.
Proof.
  cbv zeta. intros E0 Hok0 E Hok Hj Hl Hn. eexists. split.
  - apply getModels_convert. unfold listModels. simpl.
    unfold probe, response_json, fetch, bind, try_catch, ret, lift.
    simpl. rewrite E0, Hok0, E, Hok, Hj. rewrite (transform_names _ _ _ _ _ Hl Hn).
    reflexivity.
  - rewrite !map_map. simpl.
    rewrite <- (map_id ids) at 2. apply map_ext. intros n. apply js_or_same.
Qed.

(** X11: [getModels] of the local provider asks [/api/tags],
    [/v1/models] and [/models] of the endpoint in this order, each with a
    GET that has no headers and no body, and stops at the first of them
    that is answered with a 2xx response whose JSON document the transform
    of that entry accepts: the result is the conversion of the list of
    that answer and no later request is sent.  When none of the three
    answers so, the result is empty after the three requests.  So it
    sends one, two or three requests. *)
Theorem getModels_requests `{World}
  (key apiEndpoint : option string) (log : Log) :
  let endpoint := LocalProvider.localEndpoint apiEndpoint in
  let tags := {| url := endpoint ++ "/api/tags"; method := "GET";
                 headers := []; body := None |} in
  let v1_models := {| url := endpoint ++ "/v1/models"; method := "GET";
                      headers := []; body := None |} in
  let models := {| url := endpoint ++ "/models"; method := "GET";
                   headers := []; body := None |} in
  let log1 := (log ++ [Fetch tags])%list in
  let log2 := (log1 ++ [Fetch v1_models])%list in
  let log3 := (log2 ++ [Fetch models])%list in
  let answer1 := probe_answer (fetch_reply log tags) (transform "models" "name") in
  let answer2 := probe_answer (fetch_reply log1 v1_models) (transform "data" "id") in
  let answer3 := probe_answer (fetch_reply log2 models) (transform "data" "id") in
  let convert :=
    map (fun model => {| id := js_or (lm_id model) (lm_name model);
                         object := "model";
                         created := Date_now;
                         owned_by := "local" |}) in
  let urls := [endpoint ++ "/api/tags"; endpoint ++ "/v1/models"; endpoint ++ "/models"] in
  (forall listed,
      answer1 = Some listed ->
      LocalProvider.getModels key apiEndpoint log = (inr (convert listed), log1))
  /\ (forall listed,
         answer1 = None -> answer2 = Some listed ->
         LocalProvider.getModels key apiEndpoint log = (inr (convert listed), log2))
  /\ (forall listed,
         answer1 = None -> answer2 = None -> answer3 = Some listed ->
         LocalProvider.getModels key apiEndpoint log = (inr (convert listed), log3))
  /\ (answer1 = None -> answer2 = None -> answer3 = None ->
      LocalProvider.getModels key apiEndpoint log = (inr [], log3))
  /\ (exists n,
         (1 <= n <= 3)%nat
         /\ snd (LocalProvider.getModels key apiEndpoint log)
            = (log ++ map (fun u => Fetch (get u)) (firstn n urls))%list).
Proof.
  cbv zeta.
  set (endpoint := LocalProvider.localEndpoint apiEndpoint).
  set (p1 := {| probe_format := ollama; probe_url := endpoint ++ "/api/tags";
                probe_transform := transform "models" "name" |}).
  set (p2 := {| probe_format := lmstudio; probe_url := endpoint ++ "/v1/models";
                probe_transform := transform "data" "id" |}).
  set (p3 := {| probe_format := openai; probe_url := endpoint ++ "/models";
                probe_transform := transform "data" "id" |}).
  assert (Hrun : listModels endpoint log
                 = listModels_loop [p1; p2; p3] log) by reflexivity.
  cbn [listModels_loop] in Hrun. unfold bind at 1 in Hrun.
  rewrite (probe_run p1 log) in Hrun.
  change (get (probe_url p1))
    with {| url := endpoint ++ "/api/tags"; method := "GET";
            headers := []; body := None |} in Hrun.
  change (probe_transform p1) with (transform "models" "name") in Hrun.
  destruct (probe_answer
              (fetch_reply log
                 {| url := endpoint ++ "/api/tags"; method := "GET";
                    headers := []; body := None |})
              (transform "models" "name")) as [ms1|] eqn:E1.
  { unfold ret in Hrun.
    split; [|split; [|split; [|split]]].
    - intros listed Hx. injection Hx as <-. apply getModels_convert. exact Hrun.
    - intros listed Hx. discriminate Hx.
    - intros listed Hx. discriminate Hx.
    - intros Hx. discriminate Hx.
    - exists 1%nat. split; [lia|].
      rewrite (getModels_convert _ _ _ _ _ Hrun). reflexivity. }
  unfold bind at 1 in Hrun.
  rewrite (probe_run p2) in Hrun.
  change (get (probe_url p2))
    with {| url := endpoint ++ "/v1/models"; method := "GET";
            headers := []; body := None |} in Hrun.
  change (probe_transform p2) with (transform "data" "id") in Hrun.
  destruct (probe_answer
              (fetch_reply
                 (log ++ [Fetch {| url := endpoint ++ "/api/tags"; method := "GET";
                                   headers := []; body := None |}])%list
                 {| url := endpoint ++ "/v1/models"; method := "GET";
                    headers := []; body := None |})
              (transform "data" "id")) as [ms2|] eqn:E2.
  { unfold ret in Hrun.
    split; [|split; [|split; [|split]]].
    - intros listed Hx. discriminate Hx.
    - intros listed _ Hx. injection Hx as <-. apply getModels_convert. exact Hrun.
    - intros listed _ Hx. discriminate Hx.
    - intros _ Hx. discriminate Hx.
    - exists 2%nat. split; [lia|].
      rewrite (getModels_convert _ _ _ _ _ Hrun). cbn [snd firstn map].
      rewrite <- app_assoc. reflexivity. }
  unfold bind at 1 in Hrun.
  rewrite (probe_run p3) in Hrun.
  change (get (probe_url p3))
    with {| url := endpoint ++ "/models"; method := "GET";
            headers := []; body := None |} in Hrun.
  change (probe_transform p3) with (transform "data" "id") in Hrun.
  destruct (probe_answer
              (fetch_reply
                 ((log ++ [Fetch {| url := endpoint ++ "/api/tags"; method := "GET";
                                    headers := []; body := None |}])
                    ++ [Fetch {| url := endpoint ++ "/v1/models"; method := "GET";
                                 headers := []; body := None |}])%list
                 {| url := endpoint ++ "/models"; method := "GET";
                    headers := []; body := None |})
              (transform "data" "id")) as [ms3|] eqn:E3.
  - unfold ret in Hrun.
    split; [|split; [|split; [|split]]].
    + intros listed Hx. discriminate Hx.
    + intros listed _ Hx. discriminate Hx.
    + intros listed _ _ Hx. injection Hx as <-. apply getModels_convert. exact Hrun.
    + intros _ _ Hx. discriminate Hx.
    + exists 3%nat. split; [lia|].
      rewrite (getModels_convert _ _ _ _ _ Hrun). cbn [snd firstn map].
      rewrite <- !app_assoc. reflexivity.
  - cbn [listModels_loop] in Hrun. unfold ret in Hrun.
    split; [|split; [|split; [|split]]].
    + intros listed Hx. discriminate Hx.
    + intros listed _ Hx. discriminate Hx.
    + intros listed _ _ Hx. discriminate Hx.
    + intros _ _ _. apply (getModels_convert _ _ _ _ _ Hrun).
    + exists 3%nat. split; [lia|].
      rewrite (getModels_convert _ _ _ _ _ Hrun). cbn [snd firstn map].
      rewrite <- !app_assoc. reflexivity.
Qed.


Lemma on_error_throws `{World} (error : AxiosError) (log : Log) :
  exists t, OpenAIProvider.on_error error log = (inl t, log).
Proof.
  unfold OpenAIProvider.on_error, throw. break; eauto.
Qed.

(** X12: [generateCompletion] of the remote provider returns a
    stream exactly when the API call fulfils, and then it is the stream of
    the API; a rejection is never turned into a result. *)
Theorem OpenAIProvider_stream_iff `{World}
  (params : CompletionParams) (log : Log) (s : Stream) :
  let cfg := {| apiKey := key params; basePath := apiEndpoint params |} in
  fst (OpenAIProvider.generateCompletion params log) = inr s
  <-> openai_reply log cfg (OpenAIProvider.completion_request params) = inr s.
Proof.
  cbv zeta.
  unfold OpenAIProvider.generateCompletion, try_catch,
    OpenAIProvider.createChatCompletion.
  destruct (openai_reply _ _ _) as [e | data].
  - destruct (on_error_throws e
                (log ++ [CreateChatCompletion
                           {| apiKey := key params; basePath := apiEndpoint params |}
                           (OpenAIProvider.completion_request params)])%list)
      as [t ->].
    simpl. split; discriminate.
  - simpl. split; congruence.
Qed.

(** X25: on a DNS failure the message of the [KnownError] is built
    from the properties [hostname] and [syscall] of [error.request].  A
    request object that has neither, as the one the HTTP client attaches
    to its errors, gives [Error connecting to undefined (undefined). Are
    you connected to the internet?]; an error that carries no request
    gives a [TypeError] in place of the [KnownError]. *)
Theorem OpenAIProvider_dns_message `{World}
  (params : CompletionParams) (log : Log) (error : AxiosError) :
  let cfg := {| apiKey := key params; basePath := apiEndpoint params |} in
  let thrown := fst (OpenAIProvider.generateCompletion params log) in
  openai_reply log cfg (OpenAIProvider.completion_request params) = inl error ->
  code error = Some "ENOTFOUND" ->
  (forall rq,
      request error = Some rq ->
      thrown = inl (KnownError ("Error connecting to " ++ template_text (hostname rq)
                                  ++ " (" ++ template_text (syscall rq)
                                  ++ "). Are you connected to the internet?")))
  /\ (forall rq,
         request error = Some rq -> hostname rq = None -> syscall rq = None ->
         thrown
         = inl (KnownError
                  "Error connecting to undefined (undefined). Are you connected to the internet?"))
  /\ (request error = None ->
      thrown = inl (TypeError "Cannot read properties of undefined (reading 'hostname')")).
Proof.
  cbv zeta. intros Hreply Hcode.
  assert (Hrun : fst (OpenAIProvider.generateCompletion params log)
                 = fst (OpenAIProvider.on_error error
                          (log ++ [CreateChatCompletion
                                     {| apiKey := key params;
                                        basePath := apiEndpoint params |}
                                     (OpenAIProvider.completion_request params)])%list)).
  { unfold OpenAIProvider.generateCompletion, try_catch,
      OpenAIProvider.createChatCompletion.
    rewrite Hreply. reflexivity. }
  assert (Hd : OpenAIProvider.is_dns_failure error = true).
  { unfold OpenAIProvider.is_dns_failure. rewrite Hcode. reflexivity. }
  rewrite Hrun. unfold OpenAIProvider.on_error, throw. rewrite Hd.
  split; [|split].
  - intros rq Hrq. rewrite Hrq. reflexivity.
  - intros rq Hrq Hh Hs. rewrite Hrq, Hh, Hs. reflexivity.
  - intros Hrq. rewrite Hrq. reflexivity.
Qed.

(** X13: [getModels] of the remote provider lets a rejection of
    the API through as it is, and of a fulfilled list keeps exactly the
    entries whose [object] is [model]; a list that holds only such entries
    is returned unchanged. *)
Theorem OpenAIProvider_getModels_filter (reply : AxiosError + list Model) :
  (forall e, reply = inl e -> OpenAIProvider_getModels reply = inl (AxiosErr e))
  /\ (forall data,
         reply = inr data ->
         exists models,
           OpenAIProvider_getModels reply = inr models
           /\ (forall m, In m models <-> In m data /\ object m = "model")
           /\ (length models <= length data)%nat
           /\ (Forall (fun m => object m = "model") data -> models = data)).
Proof.
  split.
  - intros e ->. reflexivity.
  - intros data ->. eexists. split; [reflexivity|]. split; [|split].
    + intros m. rewrite filter_In, String.eqb_eq. reflexivity.
    + apply filter_length_le.
    + intros Hall. induction Hall as [|m rest Hm _ IH]; simpl; [reflexivity|].
      apply String.eqb_eq in Hm. rewrite Hm, IH. reflexivity.
Qed.

(** X14: [getProvider] throws exactly for the names that are
    neither [openai] nor [local] nor a property of [Object.prototype]; what
    it throws is always [KnownError "Unknown provider: <name>"], and it
    leaves the registry as it was. *)
Theorem getProvider_raises_iff (name : string) :
  (fst (getProvider name module_init) = inl (KnownError ("Unknown provider: " ++ name))
   <-> name <> "openai" /\ name <> "local" /\ mem_string name Object_prototype = false)
  /\ (forall e, fst (getProvider name module_init) = inl e ->
                e = KnownError ("Unknown provider: " ++ name))
  /\ snd (getProvider name module_init) = module_init.
Proof.
  assert (Hown : own_property name (providers module_init)
                 = if (name =? "openai")%string then Some 0%nat
                   else if (name =? "local")%string then Some 1%nat else None)
    by reflexivity.
  unfold getProvider, read_property. rewrite Hown. clear Hown.
  destruct (String.eqb_spec name "openai") as [Eo | Ho].
  { cbn [fst snd]. split; [split; [intros Hx; discriminate Hx
                                  | intros [Hx _]; contradiction]|].
    split; [intros e Hx; discriminate Hx | reflexivity]. }
  destruct (String.eqb_spec name "local") as [El | Hl].
  { cbn [fst snd]. split; [split; [intros Hx; discriminate Hx
                                  | intros (_ & Hx & _); contradiction]|].
    split; [intros e Hx; discriminate Hx | reflexivity]. }
  destruct (mem_string name Object_prototype) eqn:Hp; cbn [fst snd].
  - split; [split; [intros Hx; discriminate Hx
                   | intros (_ & _ & Hx); discriminate Hx]|].
    split; [intros e Hx; discriminate Hx | reflexivity].
  - split; [split; auto|]. split; [congruence | reflexivity].
Qed.

(** ** The configuration *)


Lemma lower_t (c : ascii) : lower c = "t"%char -> c = "t"%char \/ c = "T"%char.
Proof.
  destruct c as [[] [] [] [] [] [] [] []]; vm_compute; intros E;
    try discriminate E; auto.
Qed.

Lemma lower_r (c : ascii) : lower c = "r"%char -> c = "r"%char \/ c = "R"%char.
Proof.
  destruct c as [[] [] [] [] [] [] [] []]; vm_compute; intros E;
    try discriminate E; auto.
Qed.

Lemma lower_u (c : ascii) : lower c = "u"%char -> c = "u"%char \/ c = "U"%char.
Proof.
  destruct c as [[] [] [] [] [] [] [] []]; vm_compute; intros E;
    try discriminate E; auto.
Qed.

Lemma lower_e (c : ascii) : lower c = "e"%char -> c = "e"%char \/ c = "E"%char.
Proof.
  destruct c as [[] [] [] [] [] [] [] []]; vm_compute; intros E;
    try discriminate E; auto.
Qed.

Lemma lowercase_true_iff (s : string) :
  (toLowerCase s =? "true")%string = true
  <-> exists a b c d,
      s = String a (String b (String c (String d EmptyString)))
      /\ (a = "t" \/ a = "T")%char
      /\ (b = "r" \/ b = "R")%char
      /\ (c = "u" \/ c = "U")%char
      /\ (d = "e" \/ d = "E")%char.
Proof.
  rewrite String.eqb_eq. split.
  - destruct s as [|a [|b [|c [|d [|x m]]]]]; simpl; intros E; try discriminate E.
    injection E as Ea Eb Ec Ed.
    exists a, b, c, d. split; [reflexivity|].
    split; [apply lower_t; exact Ea|]. split; [apply lower_r; exact Eb|].
    split; [apply lower_u; exact Ec | apply lower_e; exact Ed].
  - intros (a & b & c & d & -> & [-> | ->] & [-> | ->] & [-> | ->] & [-> | ->]);
      reflexivity.
Qed.

Section ConfigFacts.
Context `{ConfigEnv}.

Lemma nonempty_truthy (s : string) : s <> EmptyString -> truthy (JStr s) = true.
Proof. intros Hs. simpl. destruct (String.eqb_spec s EmptyString); [contradiction|reflexivity]. Qed.

Lemma truthy_nonempty (v : JsVal) : truthy v = true -> v <> JStr EmptyString.
Proof. intros Ht ->. discriminate Ht. Qed.

Lemma length_zero (s : string) : (String.length s =? 0)%nat = (s =? EmptyString)%string.
Proof. destruct s; reflexivity. Qed.

Lemma truthy_of_opt_string (m : option string) : truthy (of_opt_string m) = truthy_str m.
Proof. destruct m; reflexivity. Qed.

Lemma length_is_zero_of_opt_string (m : option string) :
  length_is_zero (of_opt_string m) = true -> truthy_str m = false.
Proof.
  destruct m as [s|]; [|reflexivity]. cbn [of_opt_string length_is_zero truthy_str].
  rewrite length_zero. intros ->. reflexivity.
Qed.

Lemma is_string_iff (literal : string) (v : JsVal) :
  is_string literal v = true <-> v = JStr literal.
Proof.
  destruct v; simpl; try (split; intros E; discriminate E).
  rewrite String.eqb_eq. split; [intros -> | intros E; injection E as ->]; reflexivity.
Qed.

Lemma js_or_truthy (a d : JsVal) : truthy d = true -> truthy (js_or a d) = true.
Proof. intros Hd. unfold js_or. destruct (truthy a) eqn:Ha; assumption. Qed.

Lemma js_or_idem (a d : JsVal) : truthy d = true -> js_or (js_or a d) d = js_or a d.
Proof.
  intros Hd. unfold js_or at 1. rewrite (js_or_truthy a d Hd). reflexivity.
Qed.

Lemma js_or_string (s d : string) :
  js_or (JStr s) (JStr d) = JStr (if (s =? EmptyString)%string then d else s).
Proof. unfold js_or. simpl. destruct (s =? EmptyString)%string; reflexivity. Qed.

Lemma js_String_of_opt_string (m : option string) :
  js_String (of_opt_string m)
  = inr (match m with Some s => s | None => "undefined" end).
Proof. destruct m; reflexivity. Qed.

Lemma API_KEY_cases (key : JsVal) :
  (truthy key = false
   /\ configParsers.API_KEY key = inl (KnownError configParsers.API_KEY_message))
  \/ (truthy key = true /\ configParsers.API_KEY key = inr key).
Proof.
  unfold configParsers.API_KEY. destruct (truthy key); simpl; auto.
Qed.

Lemma MODEL_cases (model : JsVal) :
  ((truthy model = false \/ length_is_zero model = true)
   /\ configParsers.MODEL model = JStr "gpt-4o-mini")
  \/ (truthy model = true /\ length_is_zero model = false
      /\ configParsers.MODEL model = model).
Proof.
  unfold configParsers.MODEL.
  destruct (truthy model); simpl; [|auto].
  destruct (length_is_zero model); simpl; auto.
Qed.

Lemma MODEL_truthy (model : JsVal) :
  truthy (configParsers.MODEL model) = true
  /\ length_is_zero (configParsers.MODEL model) = false.
Proof.
  destruct (MODEL_cases model) as [[_ E] | (Ht & Hl & E)]; rewrite E; auto.
Qed.

Lemma PROVIDER_cases (provider : JsVal) :
  ((truthy provider = false \/ length_is_zero provider = true)
   /\ configParsers.PROVIDER provider = inr (JStr "openai"))
  \/ ((provider = JStr "openai" \/ provider = JStr "local")
      /\ configParsers.PROVIDER provider = inr provider)
  \/ (truthy provider = true /\ length_is_zero provider = false
      /\ provider <> JStr "openai" /\ provider <> JStr "local"
      /\ configParsers.PROVIDER provider
         = obind (js_String provider)
             (fun text => inl (KnownError (configParsers.PROVIDER_message text)))).
Proof.
  unfold configParsers.PROVIDER.
  destruct (truthy provider) eqn:Ht; simpl; [|auto].
  destruct (length_is_zero provider) eqn:Hl; simpl; [auto|].
  destruct (is_string "openai" provider) eqn:Ho; simpl.
  { apply is_string_iff in Ho. right. left. auto. }
  destruct (is_string "local" provider) eqn:Hloc; simpl.
  { apply is_string_iff in Hloc. right. left. auto. }
  right. right. split; [reflexivity|]. split; [reflexivity|].
  split; [|split; [|reflexivity]]; intros ->; [discriminate Ho | discriminate Hloc].
Qed.

Lemma SILENT_MODE_cases (mode : JsVal) :
  (exists text,
      js_String mode = inr text
      /\ configParsers.SILENT_MODE mode = inr (toLowerCase text =? "true")%string)
  \/ (exists e, js_String mode = inl e /\ configParsers.SILENT_MODE mode = inl e).
Proof.
  unfold configParsers.SILENT_MODE.
  destruct (js_String mode) as [e | text]; cbn [obind]; eauto.
Qed.

End ConfigFacts.

(** X15: the [SILENT_MODE] parser answers true exactly when the text
    of its argument is one of the four-letter words that spell [true] in
    any mix of upper and lower case.  On a string, which is its own text,
    and on an absent value it never throws, and an absent value, [1],
    [yes] and the like give false; the boolean [true] gives true, the
    boolean [false] and [null] give false; on any other value it throws
    exactly when the conversion to a string does. *)
Theorem SILENT_MODE_true_iff `{ConfigEnv} (mode : JsVal) :
  (forall m : option string,
      configParsers.SILENT_MODE (of_opt_string m) = inr true
      <-> exists a b c d,
          m = Some (String a (String b (String c (String d EmptyString))))
          /\ (a = "t" \/ a = "T")%char
          /\ (b = "r" \/ b = "R")%char
          /\ (c = "u" \/ c = "U")%char
          /\ (d = "e" \/ d = "E")%char)
  /\ (forall m : option string,
         configParsers.SILENT_MODE (of_opt_string m)
         = inr (toLowerCase (match m with Some s => s | None => "undefined" end)
                =? "true")%string)
  /\ configParsers.SILENT_MODE JNull = inr false
  /\ (forall b, configParsers.SILENT_MODE (JBool b) = inr b)
  /\ (configParsers.SILENT_MODE mode = inr true
      <-> exists a b c d,
          js_String mode = inr (String a (String b (String c (String d EmptyString))))
          /\ (a = "t" \/ a = "T")%char
          /\ (b = "r" \/ b = "R")%char
          /\ (c = "u" \/ c = "U")%char
          /\ (d = "e" \/ d = "E")%char)
  /\ (forall e, configParsers.SILENT_MODE mode = inl e <-> js_String mode = inl e).
Proof.
  assert (Hopt : forall m : option string,
             configParsers.SILENT_MODE (of_opt_string m)
             = inr (toLowerCase (match m with Some s => s | None => "undefined" end)
                    =? "true")%string).
  { intros m. unfold configParsers.SILENT_MODE.
    rewrite js_String_of_opt_string. reflexivity. }
  split; [|split; [exact Hopt|split; [reflexivity|split]]].
  - intros m. rewrite Hopt. split.
    + intros E. injection E as E. apply lowercase_true_iff in E.
      destruct E as (a & b & c & d & Es & Hrest).
      destruct m as [s|]; [|discriminate Es].
      exists a, b, c, d. split; [rewrite Es; reflexivity | exact Hrest].
    + intros (a & b & c & d & -> & Hrest). f_equal.
      apply lowercase_true_iff. exists a, b, c, d. split; [reflexivity | exact Hrest].
  - intros b. destruct b; reflexivity.
  - destruct (SILENT_MODE_cases mode) as [(text & Et & E) | (e & Et & E)];
      rewrite E, Et; split.
    + split.
      * intros Hx. injection Hx as Hx. apply lowercase_true_iff in Hx.
        destruct Hx as (a & b & c & d & -> & Hrest).
        exists a, b, c, d. split; [reflexivity | exact Hrest].
      * intros (a & b & c & d & Hx & Hrest). injection Hx as ->. f_equal.
        apply lowercase_true_iff. exists a, b, c, d. split; [reflexivity | exact Hrest].
    + intros e. split; intros Hx; discriminate Hx.
    + split; [intros Hx; discriminate Hx|].
      intros (a & b & c & d & Hx & _). discriminate Hx.
    + intros e'. split; intros Hx; injection Hx as ->; reflexivity.
Qed.

(** X16: the [PROVIDER] parser returns [openai] or [local] and
    nothing else: [local] only for the string [local], [openai] for a
    falsy value (absent, empty, [null], [false], zero), for a value of
    length zero and for the string [openai]; every other value, [Local]
    or [OPENAI] included, throws: a [KnownError] that quotes the text of
    the value, or what the conversion of the value to a string throws. *)
Theorem PROVIDER_accepts `{ConfigEnv} (provider : JsVal) :
  (forall v, configParsers.PROVIDER provider = inr v ->
             v = JStr "openai" \/ v = JStr "local")
  /\ (configParsers.PROVIDER provider = inr (JStr "local") <-> provider = JStr "local")
  /\ (configParsers.PROVIDER provider = inr (JStr "openai")
      <-> truthy provider = false \/ length_is_zero provider = true
          \/ provider = JStr "openai")
  /\ (forall e, configParsers.PROVIDER provider = inl e ->
        (exists text,
            js_String provider = inr text
            /\ e = KnownError ("Invalid provider: " ++ text
                                 ++ ". Supported providers: openai, local"))
        \/ js_String provider = inl e)
  /\ (forall m : option string,
         provider = of_opt_string m ->
         (configParsers.PROVIDER provider = inr (JStr "openai")
          <-> truthy_str m = false \/ m = Some "openai")
         /\ (forall e, configParsers.PROVIDER provider = inl e ->
               exists p, m = Some p
                         /\ e = KnownError ("Invalid provider: " ++ p
                                              ++ ". Supported providers: openai, local"))).
Proof.
  assert (Hthrown : forall e, configParsers.PROVIDER provider = inl e ->
            (exists text,
                js_String provider = inr text
                /\ e = KnownError ("Invalid provider: " ++ text
                                     ++ ". Supported providers: openai, local"))
            \/ js_String provider = inl e).
  { intros e.
    destruct (PROVIDER_cases provider)
      as [[_ E] | [[_ E] | (_ & _ & _ & _ & E)]]; rewrite E;
      try (intros Hx; discriminate Hx).
    destruct (js_String provider) as [e' | text]; cbn [obind]; intros Hx.
    - right. injection Hx as ->. reflexivity.
    - left. exists text. split; [reflexivity|]. injection Hx as <-. reflexivity. }
  assert (Hopenai : configParsers.PROVIDER provider = inr (JStr "openai")
                    <-> truthy provider = false \/ length_is_zero provider = true
                        \/ provider = JStr "openai").
  { destruct (PROVIDER_cases provider)
      as [[Hf E] | [[Hp E] | (Ht & Hl & Ho & Hloc & E)]]; rewrite E.
    - split; [intros _ | reflexivity]. destruct Hf; auto.
    - split.
      + intros Hx. injection Hx as Hx. auto.
      + intros [Hx | [Hx | Hx]].
        * destruct Hp as [-> | ->]; discriminate Hx.
        * destruct Hp as [-> | ->]; discriminate Hx.
        * rewrite Hx. reflexivity.
    - split.
      + destruct (js_String provider); cbn [obind]; intros Hx; discriminate Hx.
      + intros [Hx | [Hx | Hx]]; [congruence | congruence | contradiction]. }
  split; [|split; [|split; [exact Hopenai | split; [exact Hthrown|]]]].
  - intros v.
    destruct (PROVIDER_cases provider)
      as [[_ E] | [[Hp E] | (_ & _ & _ & _ & E)]]; rewrite E.
    + intros Hx. injection Hx as <-. auto.
    + intros Hx. injection Hx as <-. exact Hp.
    + destruct (js_String provider); cbn [obind]; intros Hx; discriminate Hx.
  - destruct (PROVIDER_cases provider)
      as [[Hf E] | [[Hp E] | (_ & _ & _ & Hloc & E)]]; rewrite E.
    + split; [intros Hx; discriminate Hx|].
      intros ->. destruct Hf as [Hf | Hf]; discriminate Hf.
    + split; [intros Hx; injection Hx as Hx; exact Hx | intros ->; reflexivity].
    + split; [|intros Hx; contradiction].
      destruct (js_String provider); cbn [obind]; intros Hx; discriminate Hx.
  - intros m Em. split.
    + rewrite Hopenai. rewrite Em. rewrite truthy_of_opt_string. split.
      * intros [Hx | [Hx | Hx]]; [auto | | ].
        -- left. apply length_is_zero_of_opt_string. exact Hx.
        -- right. destruct m as [s|]; [|discriminate Hx].
           injection Hx as ->. reflexivity.
      * intros [Hx | Hx]; [auto|]. right. right. rewrite Hx. reflexivity.
    + intros e He. destruct (Hthrown e He) as [(text & Et & Ee) | Et];
        rewrite Em, js_String_of_opt_string in Et; [|discriminate Et].
      injection Et as Et. destruct m as [s|].
      * exists s. split; [reflexivity|]. rewrite Ee, Et. reflexivity.
      * exfalso. rewrite Em in He. discriminate He.
Qed.

Section ConfigStore.
Context `{ConfigEnv}.

Lemma ConfigKeys_eqb_eq (a b : ConfigKeys.t) : ConfigKeys.eqb a b = true <-> a = b.
Proof. destruct a, b; simpl; split; intros E; try reflexivity; discriminate E. Qed.

Lemma ConfigKeys_eqb_refl (a : ConfigKeys.t) : ConfigKeys.eqb a a = true.
Proof. destruct a; reflexivity. Qed.

Lemma ConfigKeys_name_eqb (a b : ConfigKeys.t) :
  (ConfigKeys.name a =? ConfigKeys.name b)%string = ConfigKeys.eqb a b.
Proof. destruct a, b; reflexivity. Qed.

Lemma own_key_iff (key : string) (k : ConfigKeys.t) :
  own_key key = Some k <-> key = ConfigKeys.name k.
Proof.
  unfold own_key, ConfigKeys.all. simpl. split.
  - repeat match goal with
           | |- context [String.eqb key ?n] =>
               destruct (String.eqb_spec key n) as [-> | ?]
           end; intros E; try discriminate E; injection E as <-; reflexivity.
  - intros ->. destruct k; reflexivity.
Qed.

Lemma lookup_set_same (k : string) (v : JsVal) (c : list (string * JsVal)) :
  lookup_field k (set_field k v c) = Some v.
Proof.
  induction c as [|[k' v'] rest IH]; simpl.
  - rewrite String.eqb_refl. reflexivity.
  - destruct (k =? k')%string eqn:E; simpl.
    + rewrite String.eqb_refl. reflexivity.
    + rewrite E. exact IH.
Qed.

Lemma lookup_set_other (k k' : string) (v : JsVal) (c : list (string * JsVal)) :
  (k =? k')%string = false ->
  lookup_field k (set_field k' v c) = lookup_field k c.
Proof.
  intros Hne. induction c as [|[k2 v2] rest IH]; simpl.
  - rewrite Hne. reflexivity.
  - destruct (k' =? k2)%string eqn:E; simpl.
    + apply String.eqb_eq in E. subst k2. rewrite Hne. reflexivity.
    + destruct (k =? k2)%string; [reflexivity | exact IH].
Qed.



Lemma setConfigs_loop_result (keyValues : list (string * string))
  (config config' : RawConfig) (k : ConfigKeys.t) :
  setConfigs_loop keyValues config = inr config' ->
  match last_assigned k keyValues with
  | Some value =>
      exists parsed,
        run_parser k (JStr value) = inr parsed
        /\ lookup_field (ConfigKeys.name k) config' = Some parsed
  | None => lookup_field (ConfigKeys.name k) config'
            = lookup_field (ConfigKeys.name k) config
  end.
Proof.
  revert config. induction keyValues as [|[key value] rest IH]; intros config; simpl.
  - intros E. injection E as <-. reflexivity.
  - destruct (own_key key) as [k'|]; [|discriminate].
    destruct (run_parser k' (JStr value)) as [e | parsed] eqn:Ep; [discriminate|].
    simpl. intros E. specialize (IH _ E).
    destruct (last_assigned k rest) as [v|]; [exact IH|].
    destruct (ConfigKeys.eqb k k') eqn:Ek.
    + apply ConfigKeys_eqb_eq in Ek. subst k'.
      exists parsed. split; [exact Ep|]. rewrite IH. apply lookup_set_same.
    + rewrite IH. apply lookup_set_other. rewrite ConfigKeys_name_eqb. exact Ek.
Qed.

Lemma setConfigs_loop_other (keyValues : list (string * string))
  (config config' : RawConfig) (name : string) :
  setConfigs_loop keyValues config = inr config' ->
  own_key name = None ->
  lookup_field name config' = lookup_field name config.
Proof.
  intros E Hname. revert config E.
  induction keyValues as [|[key value] rest IH]; intros config; simpl.
  - intros E. injection E as <-. reflexivity.
  - destruct (own_key key) as [k'|]; [|discriminate].
    destruct (run_parser k' (JStr value)) as [e | parsed]; [discriminate|].
    simpl. intros E. rewrite (IH _ E). apply lookup_set_other.
    destruct (String.eqb_spec name (ConfigKeys.name k')) as [Heq | Hne]; [|reflexivity].
    apply own_key_iff in Heq. rewrite Heq in Hname. discriminate Hname.
Qed.

End ConfigStore.

(** X17: every parser is idempotent: a value a parser returned is
    returned unchanged when the same parser is applied to it. *)
Theorem run_parser_idempotent `{ConfigEnv}
  (k : ConfigKeys.t) (value parsed : JsVal) :
  run_parser k value = inr parsed ->
  run_parser k parsed = inr parsed.
Proof.
  destruct k; cbn [run_parser].
  - destruct (API_KEY_cases value) as [[_ E] | [Ht E]]; rewrite E;
      intros Hx; [discriminate Hx|]. injection Hx as <-. exact E.
  - intros Hx. injection Hx as <-. f_equal.
    destruct (MODEL_truthy value) as [Ht Hl].
    unfold configParsers.MODEL at 1. rewrite Ht, Hl. reflexivity.
  - destruct (configParsers.SILENT_MODE value) as [e | b]; cbn [obind];
      intros Hx; [discriminate Hx|]. injection Hx as <-.
    destruct b; reflexivity.
  - intros Hx. injection Hx as <-. f_equal.
    unfold configParsers.API_ENDPOINT. apply js_or_idem. reflexivity.
  - intros Hx. injection Hx as <-. f_equal.
    unfold configParsers.LANGUAGE. apply js_or_idem. reflexivity.
  - destruct (PROVIDER_cases value)
      as [[_ E] | [[Hp E] | (_ & _ & _ & _ & E)]]; rewrite E.
    + intros Hx. injection Hx as <-. reflexivity.
    + intros Hx. injection Hx as <-. destruct Hp as [-> | ->]; reflexivity.
    + destruct (js_String value); cbn [obind]; intros Hx; discriminate Hx.
Qed.

(** X18: the API key, the model, the endpoint and the language of a
    configuration that [getConfig] returns are truthy, so none of them is
    the empty string, the model has no length of zero, and the provider is
    the string [openai] or the string [local]. *)
Theorem getConfig_valid `{ConfigEnv} (cliConfig : option RawConfig) (cfg : ValidConfig) :
  getConfig cliConfig = inr cfg ->
  (truthy (valid_API_KEY cfg) = true /\ valid_API_KEY cfg <> JStr EmptyString)
  /\ (truthy (valid_MODEL cfg) = true /\ valid_MODEL cfg <> JStr EmptyString
      /\ length_is_zero (valid_MODEL cfg) = false)
  /\ (truthy (valid_API_ENDPOINT cfg) = true /\ valid_API_ENDPOINT cfg <> JStr EmptyString)
  /\ (truthy (valid_LANGUAGE cfg) = true /\ valid_LANGUAGE cfg <> JStr EmptyString)
  /\ (valid_PROVIDER cfg = JStr "openai" \/ valid_PROVIDER cfg = JStr "local").
Proof.
  unfold getConfig. destruct readConfigFile as [e | raw]; cbn [obind]; [discriminate|].
  cbv zeta.
  destruct (API_KEY_cases (config_value cliConfig raw ConfigKeys.API_KEY))
    as [[_ E] | [Hk E]]; rewrite E; cbn [obind]; [discriminate|].
  destruct (configParsers.SILENT_MODE (config_value cliConfig raw ConfigKeys.SILENT_MODE))
    as [e | silent]; cbn [obind]; [discriminate|].
  destruct (configParsers.PROVIDER (config_value cliConfig raw ConfigKeys.PROVIDER))
    as [e | p] eqn:Ep; cbn [obind]; [discriminate|].
  intros Hx. injection Hx as <-.
  cbn [valid_API_KEY valid_MODEL valid_API_ENDPOINT valid_LANGUAGE valid_PROVIDER].
  destruct (MODEL_truthy (config_value cliConfig raw ConfigKeys.MODEL)) as [Hm Hl].
  assert (He : truthy (configParsers.API_ENDPOINT
                         (config_value cliConfig raw ConfigKeys.API_ENDPOINT)) = true)
    by (apply js_or_truthy; reflexivity).
  assert (Hlang : truthy (configParsers.LANGUAGE
                            (config_value cliConfig raw ConfigKeys.LANGUAGE)) = true)
    by (apply js_or_truthy; reflexivity).
  split; [split; [exact Hk | apply truthy_nonempty; exact Hk]|].
  split; [split; [exact Hm | split; [apply truthy_nonempty; exact Hm | exact Hl]]|].
  split; [split; [exact He | apply truthy_nonempty; exact He]|].
  split; [split; [exact Hlang | apply truthy_nonempty; exact Hlang]|].
  destruct (PROVIDER_cases (config_value cliConfig raw ConfigKeys.PROVIDER))
    as [[_ E'] | [[Hq E'] | (_ & _ & _ & _ & E')]]; rewrite E' in Ep.
  - injection Ep as <-. auto.
  - injection Ep as <-. exact Hq.
  - destruct (js_String (config_value cliConfig raw ConfigKeys.PROVIDER));
      discriminate Ep.
Qed.

(** X19: [getConfig] succeeds exactly when the file can be read (or
    is absent), the API key in effect is truthy (so not absent, empty,
    [null] or [false]), the silent mode in effect has a text, and the
    provider in effect is falsy, of length zero, the string [openai] or
    the string [local]. *)
Theorem getConfig_succeeds_iff `{ConfigEnv} (cliConfig : option RawConfig) :
  (exists cfg, getConfig cliConfig = inr cfg)
  <-> exists raw,
      readConfigFile = inr raw
      /\ truthy (config_value cliConfig raw ConfigKeys.API_KEY) = true
      /\ (exists text,
             js_String (config_value cliConfig raw ConfigKeys.SILENT_MODE) = inr text)
      /\ (truthy (config_value cliConfig raw ConfigKeys.PROVIDER) = false
          \/ length_is_zero (config_value cliConfig raw ConfigKeys.PROVIDER) = true
          \/ config_value cliConfig raw ConfigKeys.PROVIDER = JStr "openai"
          \/ config_value cliConfig raw ConfigKeys.PROVIDER = JStr "local").
Proof.
  unfold getConfig. destruct readConfigFile as [e | raw]; cbn [obind].
  { split; [intros [cfg Hx]; discriminate Hx | intros (raw & Hx & _); discriminate Hx]. }
  cbv zeta.
  destruct (API_KEY_cases (config_value cliConfig raw ConfigKeys.API_KEY))
    as [[Hf E] | [Hk E]]; rewrite E; cbn [obind].
  { split; [intros [cfg Hx]; discriminate Hx|].
    intros (raw' & Hr & Ht & _). injection Hr as <-. congruence. }
  destruct (SILENT_MODE_cases (config_value cliConfig raw ConfigKeys.SILENT_MODE))
    as [(text & Et & Es) | (e & Et & Es)]; rewrite Es; cbn [obind].
  2:{ split; [intros [cfg Hx]; discriminate Hx|].
      intros (raw' & Hr & _ & (text & Hx) & _). injection Hr as <-. congruence. }
  destruct (PROVIDER_cases (config_value cliConfig raw ConfigKeys.PROVIDER))
    as [[Hf E'] | [[Hp E'] | (Ht & Hl & Ho & Hloc & E')]];
    rewrite E'; cbn [obind].
  - split; [intros _ | eauto]. exists raw.
    split; [reflexivity|]. split; [exact Hk|]. split; [eauto|].
    destruct Hf; auto.
  - split; [intros _ | eauto]. exists raw.
    split; [reflexivity|]. split; [exact Hk|]. split; [eauto|].
    destruct Hp; auto.
  - split.
    + destruct (js_String (config_value cliConfig raw ConfigKeys.PROVIDER));
        cbn [obind]; intros [cfg Hx]; discriminate Hx.
    + intros (raw' & Hr & _ & _ & Hp). injection Hr as <-.
      destruct Hp as [Hp | [Hp | [Hp | Hp]]]; [congruence | congruence | | ];
        contradiction.
Qed.

(** X20: without a truthy API key in effect [getConfig] throws the
    request to set one, whatever the other values are: the local provider
    needs a key as well, and an invalid provider is not reported before
    the key is set. *)
Theorem getConfig_api_key_first `{ConfigEnv}
  (cliConfig : option RawConfig) (raw : RawConfig) :
  readConfigFile = inr raw ->
  truthy (config_value cliConfig raw ConfigKeys.API_KEY) = false ->
  getConfig cliConfig
  = inl (KnownError ("Please set your API key via `" ++ commandName
                       ++ " config set API_KEY=<your token>`")).
Proof.
  intros Hr Hf. unfold getConfig. rewrite Hr. cbn [obind]. cbv zeta.
  destruct (API_KEY_cases (config_value cliConfig raw ConfigKeys.API_KEY))
    as [[_ E] | [Hk E]]; rewrite E; cbn [obind]; [reflexivity|].
  rewrite Hk in Hf. discriminate Hf.
Qed.

(** X21: a value given on the command line, unless it is [null] or
    [undefined], replaces the value of the file even when it is the empty
    string: the result then holds the default of the parser
    ([gpt-4o-mini], the OpenAI endpoint, [en], [openai]), not the value of
    the file. *)
Theorem getConfig_cli_precedence `{ConfigEnv}
  (cli : RawConfig) (cfg : ValidConfig) :
  getConfig (Some cli) = inr cfg ->
  ((forall v, config_get ConfigKeys.API_KEY cli = v -> nullish v = false ->
      valid_API_KEY cfg = v)
   /\ (forall v, config_get ConfigKeys.MODEL cli = v -> nullish v = false ->
         valid_MODEL cfg
         = if truthy v && negb (length_is_zero v) then v else JStr "gpt-4o-mini")
   /\ (forall v, config_get ConfigKeys.SILENT_MODE cli = v -> nullish v = false ->
         configParsers.SILENT_MODE v = inr (valid_SILENT_MODE cfg))
   /\ (forall v, config_get ConfigKeys.API_ENDPOINT cli = v -> nullish v = false ->
         valid_API_ENDPOINT cfg = if truthy v then v else JStr "https://api.openai.com/v1")
   /\ (forall v, config_get ConfigKeys.LANGUAGE cli = v -> nullish v = false ->
         valid_LANGUAGE cfg = if truthy v then v else JStr "en")
   /\ (forall v, config_get ConfigKeys.PROVIDER cli = v -> nullish v = false ->
         valid_PROVIDER cfg
         = if truthy v && negb (length_is_zero v) then v else JStr "openai"))
  /\ ((forall s, config_get ConfigKeys.API_KEY cli = JStr s -> valid_API_KEY cfg = JStr s)
      /\ (forall s, config_get ConfigKeys.MODEL cli = JStr s ->
            valid_MODEL cfg
            = JStr (if (s =? EmptyString)%string then "gpt-4o-mini" else s))
      /\ (forall s, config_get ConfigKeys.SILENT_MODE cli = JStr s ->
            valid_SILENT_MODE cfg = (toLowerCase s =? "true")%string)
      /\ (forall s, config_get ConfigKeys.API_ENDPOINT cli = JStr s ->
            valid_API_ENDPOINT cfg
            = JStr (if (s =? EmptyString)%string then "https://api.openai.com/v1" else s))
      /\ (forall s, config_get ConfigKeys.LANGUAGE cli = JStr s ->
            valid_LANGUAGE cfg = JStr (if (s =? EmptyString)%string then "en" else s))
      /\ (forall s, config_get ConfigKeys.PROVIDER cli = JStr s ->
            valid_PROVIDER cfg
            = JStr (if (s =? EmptyString)%string then "openai" else s))).
Proof.
  unfold getConfig. destruct readConfigFile as [e | raw]; cbn [obind]; [discriminate|].
  cbv zeta.
  destruct (configParsers.API_KEY (config_value (Some cli) raw ConfigKeys.API_KEY))
    as [e | k] eqn:Ek; cbn [obind]; [discriminate|].
  destruct (configParsers.SILENT_MODE (config_value (Some cli) raw ConfigKeys.SILENT_MODE))
    as [e | silent] eqn:Es; cbn [obind]; [discriminate|].
  destruct (configParsers.PROVIDER (config_value (Some cli) raw ConfigKeys.PROVIDER))
    as [e | p] eqn:Ep; cbn [obind]; [discriminate|].
  intros Hx. injection Hx as <-. cbn [valid_API_KEY valid_MODEL valid_SILENT_MODE
                                       valid_API_ENDPOINT valid_LANGUAGE valid_PROVIDER].
  assert (Hgiven : forall key v, config_get key cli = v -> nullish v = false ->
                                 config_value (Some cli) raw key = v).
  { intros key v Hv Hn. unfold config_value. rewrite Hv, Hn. reflexivity. }
  assert (Hkey : forall v, config_get ConfigKeys.API_KEY cli = v -> nullish v = false ->
                           k = v).
  { intros v Hv Hn. rewrite (Hgiven _ _ Hv Hn) in Ek.
    unfold configParsers.API_KEY in Ek.
    destruct (truthy v); cbn [negb] in Ek; [|discriminate Ek].
    injection Ek as <-. reflexivity. }
  assert (Hmodel : forall v, config_get ConfigKeys.MODEL cli = v -> nullish v = false ->
                             configParsers.MODEL (config_value (Some cli) raw ConfigKeys.MODEL)
                             = if truthy v && negb (length_is_zero v)
                               then v else JStr "gpt-4o-mini").
  { intros v Hv Hn. rewrite (Hgiven _ _ Hv Hn). unfold configParsers.MODEL.
    destruct (truthy v); cbn [negb orb andb]; [|reflexivity].
    destruct (length_is_zero v); reflexivity. }
  assert (Hsilent : forall v, config_get ConfigKeys.SILENT_MODE cli = v ->
                              nullish v = false ->
                              configParsers.SILENT_MODE v = inr silent).
  { intros v Hv Hn. rewrite (Hgiven _ _ Hv Hn) in Es. exact Es. }
  assert (Hprovider : forall v, config_get ConfigKeys.PROVIDER cli = v ->
                                nullish v = false ->
                                p = if truthy v && negb (length_is_zero v)
                                    then v else JStr "openai").
  { intros v Hv Hn. rewrite (Hgiven _ _ Hv Hn) in Ep.
    unfold configParsers.PROVIDER in Ep.
    destruct (truthy v); cbn [negb orb andb] in Ep |- *;
      [|injection Ep as <-; reflexivity].
    destruct (length_is_zero v); cbn [negb] in Ep |- *;
      [injection Ep as <-; reflexivity|].
    destruct (negb (is_string "openai" v) && negb (is_string "local" v)).
    - destruct (js_String v); discriminate Ep.
    - injection Ep as <-. reflexivity. }
  split; [split; [exact Hkey | split; [exact Hmodel | split; [exact Hsilent|]]]|].
  - split; [|split; [|exact Hprovider]].
    + intros v Hv Hn. rewrite (Hgiven _ _ Hv Hn). reflexivity.
    + intros v Hv Hn. rewrite (Hgiven _ _ Hv Hn). reflexivity.
  - split; [|split; [|split; [|split; [|split]]]]; intros s Hs.
    + apply Hkey; [exact Hs | reflexivity].
    + rewrite (Hmodel _ Hs eq_refl). cbn [truthy length_is_zero].
      rewrite length_zero. destruct (s =? EmptyString)%string; reflexivity.
    + specialize (Hsilent _ Hs eq_refl). unfold configParsers.SILENT_MODE in Hsilent.
      cbn [js_String obind] in Hsilent. injection Hsilent as <-. reflexivity.
    + rewrite (Hgiven _ _ Hs eq_refl). apply js_or_string.
    + rewrite (Hgiven _ _ Hs eq_refl). apply js_or_string.
    + rewrite (Hprovider _ Hs eq_refl). cbn [truthy length_is_zero].
      rewrite length_zero. destruct (s =? EmptyString)%string; reflexivity.
Qed.

(** X22: [setConfigs] takes a pair exactly when its key is one of
    the six names of [configParsers], its value is not empty if the key is
    [API_KEY], and its value is empty, [openai] or [local] if the key is
    [PROVIDER]. *)
Theorem accepts_pair_iff `{ConfigEnv} (key value : string) :
  accepts_pair (key, value) = true
  <-> exists k,
      key = ConfigKeys.name k
      /\ (k = ConfigKeys.API_KEY -> value <> EmptyString)
      /\ (k = ConfigKeys.PROVIDER ->
          value = EmptyString \/ value = "openai" \/ value = "local").
Proof.
  unfold accepts_pair. cbn [fst snd]. split.
  - destruct (own_key key) as [k|] eqn:Ek; [|discriminate].
    apply own_key_iff in Ek. intros Hr. exists k. split; [exact Ek|].
    split; intros ->; cbn [run_parser] in Hr.
    + destruct (API_KEY_cases (JStr value)) as [[_ E] | [Ht _]].
      * rewrite E in Hr. discriminate Hr.
      * intros ->. discriminate Ht.
    + destruct (PROVIDER_cases (JStr value))
        as [[Hf _] | [[[Hp | Hp] _] | (_ & _ & _ & _ & E)]].
      * left. cbn [truthy length_is_zero] in Hf. rewrite length_zero in Hf.
        destruct (String.eqb_spec value EmptyString) as [Hv | Hv]; [exact Hv|].
        destruct Hf as [Hf | Hf]; discriminate Hf.
      * injection Hp as ->. auto.
      * injection Hp as ->. auto.
      * rewrite E in Hr. cbn [js_String obind] in Hr. discriminate Hr.
  - intros (k & -> & Hkey & Hprov).
    assert (Ek : own_key (ConfigKeys.name k) = Some k) by (apply own_key_iff; reflexivity).
    rewrite Ek. destruct k; cbn [run_parser]; try reflexivity.
    + destruct (API_KEY_cases (JStr value)) as [[Hf _] | [_ E]].
      * exfalso. apply (Hkey eq_refl). cbn [truthy] in Hf.
        destruct (String.eqb_spec value EmptyString); [assumption | discriminate Hf].
      * rewrite E. reflexivity.
    + destruct (Hprov eq_refl) as [-> | [-> | ->]]; reflexivity.
Qed.


(** X24: the configuration [setConfigs] writes holds, under every
    key some pair names, what the parser makes of the value of the last
    such pair, and under every other name, one of the six or not, what
    the file had. *)
Theorem setConfigs_written `{ConfigEnv}
  (keyValues : list (string * string)) (raw : RawConfig) (text : string) :
  readConfigFile = inr raw ->
  snd (setConfigs keyValues) = [text] ->
  exists config,
    text = ini_stringify config
    /\ fst (setConfigs keyValues) = writeFile text
    /\ (forall k,
           (forall value,
               last_assigned k keyValues = Some value ->
               exists parsed,
                 run_parser k (JStr value) = inr parsed
                 /\ lookup_field (ConfigKeys.name k) config = Some parsed)
           /\ (last_assigned k keyValues = None ->
               lookup_field (ConfigKeys.name k) config
               = lookup_field (ConfigKeys.name k) raw))
    /\ (forall name, own_key name = None ->
                     lookup_field name config = lookup_field name raw).
Proof.
  intros Hr. unfold setConfigs. rewrite Hr.
  destruct (setConfigs_loop keyValues raw) as [e | config] eqn:E;
    cbn [fst snd]; [discriminate|].
  intros Hx. injection Hx as <-. exists config.
  split; [reflexivity|]. split; [reflexivity|]. split.
  - intros k.
    pose proof (setConfigs_loop_result keyValues _ config k E) as Hres.
    split.
    + intros value Hl. rewrite Hl in Hres. exact Hres.
    + intros Hl. rewrite Hl in Hres. exact Hres.
  - intros name Hname. exact (setConfigs_loop_other keyValues raw config name E Hname).
Qed.

(** ** Instances of the further properties *)

Lemma ollama_stream_passthrough_witness :
  let W := Mock.world (Mock.always Mock.streaming) Mock.no_api in
  @createStream W Mock.endpoint (Some "llama2") [] None []
  = (inr {| stream := Mock.chunks; format := ollama |},
     [Fetch (@streaming_request W Mock.endpoint (Some "llama2") [] ollama)]).
Proof.
  cbv zeta.
  refine (@ollama_stream_passthrough
            (Mock.world (Mock.always Mock.streaming) Mock.no_api)
            Mock.endpoint (Some "llama2") [] [] Mock.streaming Mock.chunks
            eq_refl eq_refl eq_refl _).
  left. reflexivity.
Defined.

Lemma createStream_request_count_witness :
  let W := Mock.world (Mock.always Mock.server_error) Mock.no_api in
  exists calls,
    snd (@createStream W Mock.endpoint (Some "llama2") [] (Some lmstudio) []) = calls
    /\ length calls = 1%nat.
Proof.
  cbv zeta.
  destruct (@createStream_request_count
              (Mock.world (Mock.always Mock.server_error) Mock.no_api)
              Mock.endpoint (Some "llama2") [] (Some lmstudio) [])
    as (calls & E & _ & Hpin & _).
  exists calls. split; [exact E|].
  destruct (Hpin lmstudio eq_refl) as [_ Hone]. apply Hone. discriminate.
Defined.

Lemma stream_only_after_2xx_witness :
  let W := Mock.world (Mock.always Mock.buffered) Mock.no_api in
  exists before q resp,
    snd (@createStream W Mock.endpoint (Some "llama2") [] None [])
    = (before ++ [Fetch q])%list
    /\ url q = "http://localhost:11434/api/chat"
    /\ Mock.always Mock.buffered before q = inr resp
    /\ ok resp = true.
Proof.
  cbv zeta.
  destruct (@stream_only_after_2xx
              (Mock.world (Mock.always Mock.buffered) Mock.no_api)
              Mock.endpoint (Some "llama2") [] None []
              {| stream := ["data: " ++ Mock.encode Mock.answer ++ nl];
                 format := ollama |}
              (snd (@createStream
                      (Mock.world (Mock.always Mock.buffered) Mock.no_api)
                      Mock.endpoint (Some "llama2") [] None [])))
    as (before & q & resp & E & Hu & Hr & Hok); [vm_compute; reflexivity|].
  exists before, q, resp. split; [exact E|]. split; [exact Hu|].
  split; [exact Hr | exact Hok].
Defined.

Lemma pinned_failure_classes_witness :
  let W := Mock.world (Mock.always Mock.server_error) Mock.no_api in
  @createStream W Mock.endpoint (Some "llama2") [] (Some ollama) []
  = (inl (Error "ollama request failed (non-stream): Internal Server Error"),
     [Fetch (@streaming_request W Mock.endpoint (Some "llama2") [] ollama);
      Fetch (@non_streaming_request W Mock.endpoint (Some "llama2") [] ollama)])
  /\ (ollama = ollama
      /\ exists r2,
          Mock.always Mock.server_error
            [Fetch (@streaming_request W Mock.endpoint (Some "llama2") [] ollama)]
            (@non_streaming_request W Mock.endpoint (Some "llama2") [] ollama)
          = inr r2
          /\ ok r2 = false).
Proof.
  cbv zeta.
  assert (E : @createStream (Mock.world (Mock.always Mock.server_error) Mock.no_api)
                Mock.endpoint (Some "llama2") [] (Some ollama) []
              = (inl (Error "ollama request failed (non-stream): Internal Server Error"),
                 [Fetch (@streaming_request
                           (Mock.world (Mock.always Mock.server_error) Mock.no_api)
                           Mock.endpoint (Some "llama2") [] ollama);
                  Fetch (@non_streaming_request
                           (Mock.world (Mock.always Mock.server_error) Mock.no_api)
                           Mock.endpoint (Some "llama2") [] ollama)]))
    by (vm_compute; reflexivity).
  split; [exact E|].
  destruct (@pinned_failure_classes
              (Mock.world (Mock.always Mock.server_error) Mock.no_api)
              Mock.endpoint (Some "llama2") [] ollama [] _ _ E)
    as [[Hx _] | [[Hx _] | (Hf & _ & [Hx | (r2 & Hr & [[Hok _] | [Hok _]])])]].
  - discriminate Hx.
  - contradiction.
  - discriminate Hx.
  - split; [exact Hf|]. exists r2. split; [exact Hr | exact Hok].
  - exfalso. injection Hr as <-. discriminate Hok.
Defined.

Lemma ollama_retry_after_refusal_witness :
  let W := Mock.world MockMore.stream_refused Mock.no_api in
  ok Mock.server_error = false
  /\ @createStream W Mock.endpoint (Some "llama2") [] None []
     = (inr {| stream := ["data: " ++ Mock.encode Mock.answer ++ nl];
               format := ollama |},
        [Fetch (@streaming_request W Mock.endpoint (Some "llama2") [] ollama);
         Fetch (@non_streaming_request W Mock.endpoint (Some "llama2") [] ollama)]).
Proof.
  cbv zeta. split; [reflexivity|].
  refine (@ollama_retry_after_refusal
            (Mock.world MockMore.stream_refused Mock.no_api)
            Mock.endpoint (Some "llama2") [] [] Mock.server_error Mock.buffered
            Mock.answer eq_refl _ eq_refl eq_refl eq_refl).
  left. reflexivity.
Defined.

Lemma createStream_server_down_witness :
  let W := Mock.world Mock.refusing Mock.no_api in
  @createStream W Mock.endpoint (Some "llama2") [] None []
  = (inl (KnownError (exhausted_message Mock.endpoint)),
     [Fetch (@streaming_request W Mock.endpoint (Some "llama2") [] ollama);
      Fetch (@streaming_request W Mock.endpoint (Some "llama2") [] lmstudio);
      Fetch (@streaming_request W Mock.endpoint (Some "llama2") [] openai)]).
Proof.
  cbv zeta.
  refine (@createStream_server_down (Mock.world Mock.refusing Mock.no_api)
            Mock.endpoint (Some "llama2") [] [] _).
  intros l q. exists (TypeError "fetch failed"). reflexivity.
Defined.

Lemma transform_throws_iff_witness :
  exists e,
    transform "models" "name"
      (JObj [("models", JArr [JObj [("name", JStr "llama2")]; JNull])]) = inl e.
Proof.
  apply (proj2 (transform_throws_iff "models" "name"
                  (JObj [("models", JArr [JObj [("name", JStr "llama2")]; JNull])]))).
  right. exists (JArr [JObj [("name", JStr "llama2")]; JNull]).
  split; [reflexivity|]. right.
  exists [JObj [("name", JStr "llama2")]; JNull]. split; reflexivity.
Defined.

Lemma getModels_ollama_names_witness :
  let W := Mock.world (Mock.always MockMore.tags_response) Mock.no_api in
  exists models,
    @LocalProvider.getModels W None None []
    = (inr models, [Fetch (get "http://localhost:11434/api/tags")])
    /\ map id models = [JStr "llama2:7b"; JStr "codellama"].
Proof.
  cbv zeta.
  refine (@getModels_ollama_names
            (Mock.world (Mock.always MockMore.tags_response) Mock.no_api)
            None None [] MockMore.tags_response _ _
            [JStr "llama2:7b"; JStr "codellama"]
            eq_refl eq_refl eq_refl eq_refl _).
  repeat constructor.
Defined.

Lemma getModels_openai_compatible_ids_witness :
  let W := Mock.world MockMore.lmstudio_models Mock.no_api in
  exists models,
    @LocalProvider.getModels W None None []
    = (inr models,
       [Fetch (get "http://localhost:11434/api/tags");
        Fetch (get "http://localhost:11434/v1/models")])
    /\ map id models = [JStr "mistral-7b"].
Proof.
  cbv zeta.
  refine (@getModels_openai_compatible_ids
            (Mock.world MockMore.lmstudio_models Mock.no_api)
            None None [] Mock.not_found _ _ _ [JStr "mistral-7b"]
            eq_refl eq_refl eq_refl eq_refl eq_refl eq_refl _).
  repeat constructor.
Defined.

Lemma getModels_requests_witness :
  let W := Mock.world MockMore.lmstudio_models Mock.no_api in
  exists models,
    @LocalProvider.getModels W None None []
    = (inr models,
       [Fetch {| url := "http://localhost:11434/api/tags"; method := "GET";
                 headers := []; body := None |};
        Fetch {| url := "http://localhost:11434/v1/models"; method := "GET";
                 headers := []; body := None |}])
    /\ map id models = [JStr "mistral-7b"].
Proof.
  cbv zeta.
  destruct (@getModels_requests (Mock.world MockMore.lmstudio_models Mock.no_api)
              None None [])
    as (_ & Hsecond & _).
  eexists. split.
  - exact (Hsecond [{| lm_id := JStr "mistral-7b"; lm_name := JStr "mistral-7b" |}]
             eq_refl eq_refl).
  - reflexivity.
Defined.

Lemma OpenAIProvider_stream_iff_witness :
  let W := Mock.world Mock.refusing (fun _ _ _ => inr Mock.chunks) in
  fst (@OpenAIProvider.generateCompletion W Mock.params []) = inr Mock.chunks.
Proof.
  cbv zeta.
  apply (proj2 (@OpenAIProvider_stream_iff
                  (Mock.world Mock.refusing (fun _ _ _ => inr Mock.chunks))
                  Mock.params [] Mock.chunks)).
  reflexivity.
Defined.

Lemma OpenAIProvider_dns_message_witness :
  let W := Mock.world Mock.refusing (Mock.rejecting Mock.dns_failure) in
  fst (@OpenAIProvider.generateCompletion W Mock.params [])
  = inl (KnownError
           "Error connecting to undefined (undefined). Are you connected to the internet?").
Proof.
  cbv zeta.
  destruct (@OpenAIProvider_dns_message
              (Mock.world Mock.refusing (Mock.rejecting Mock.dns_failure))
              Mock.params [] Mock.dns_failure eq_refl eq_refl)
    as (_ & Hbare & _).
  exact (Hbare Mock.client_request eq_refl eq_refl eq_refl).
Defined.

Lemma OpenAIProvider_getModels_filter_witness :
  exists models,
    OpenAIProvider_getModels (inr MockMore.upstream_models) = inr models
    /\ length models = 1%nat
    /\ OpenAIProvider_getModels (inl Mock.dns_failure) = inl (AxiosErr Mock.dns_failure).
Proof.
  destruct (OpenAIProvider_getModels_filter (inr MockMore.upstream_models))
    as [_ Hdata].
  destruct (Hdata MockMore.upstream_models eq_refl) as (models & E & _).
  exists models. split; [exact E|]. split.
  - vm_compute in E. injection E as <-. reflexivity.
  - destruct (OpenAIProvider_getModels_filter (inl Mock.dns_failure)) as [Herr _].
    exact (Herr Mock.dns_failure eq_refl).
Defined.

Lemma getProvider_raises_iff_witness :
  fst (getProvider "gemini" module_init) = inl (KnownError "Unknown provider: gemini").
Proof.
  destruct (getProvider_raises_iff "gemini") as [Hiff _].
  apply (proj2 Hiff). split; [discriminate|]. split; [discriminate | reflexivity].
Defined.

Lemma SILENT_MODE_true_iff_witness :
  @configParsers.SILENT_MODE (MockConfig.env None) (JStr "True") = inr true.
Proof.
  destruct (@SILENT_MODE_true_iff (MockConfig.env None) (JStr "True"))
    as (Hstring & _).
  apply (proj2 (Hstring (Some "True"))).
  exists "T"%char, "r"%char, "u"%char, "e"%char.
  split; [reflexivity|]. auto.
Defined.

Lemma PROVIDER_accepts_witness :
  @configParsers.PROVIDER (MockConfig.env None) (JStr "local") = inr (JStr "local").
Proof.
  destruct (@PROVIDER_accepts (MockConfig.env None) (JStr "local"))
    as (_ & Hlocal & _).
  apply (proj2 Hlocal). reflexivity.
Defined.

Lemma run_parser_idempotent_witness :
  @run_parser (MockConfig.env None) ConfigKeys.SILENT_MODE (JStr "TRUE")
  = inr (JBool true)
  /\ @run_parser (MockConfig.env None) ConfigKeys.SILENT_MODE (JBool true)
     = inr (JBool true).
Proof.
  split; [reflexivity|].
  exact (@run_parser_idempotent (MockConfig.env None) ConfigKeys.SILENT_MODE
           (JStr "TRUE") (JBool true) eq_refl).
Defined.

Lemma getConfig_valid_witness :
  let E := MockConfig.env (Some MockConfig.local_file) in
  @getConfig E None
  = inr {| valid_API_KEY := JStr "sk-test";
           valid_MODEL := JStr "llama2";
           valid_SILENT_MODE := false;
           valid_API_ENDPOINT := JStr "http://localhost:11434";
           valid_LANGUAGE := JStr "en";
           valid_PROVIDER := JStr "local" |}
  /\ JStr "llama2" <> JStr EmptyString.
Proof.
  cbv zeta. split; [reflexivity|].
  destruct (@getConfig_valid (MockConfig.env (Some MockConfig.local_file)) None _ eq_refl)
    as (_ & (_ & Hmodel & _) & _).
  exact Hmodel.
Defined.

Lemma getConfig_succeeds_iff_witness :
  let E := MockConfig.env (Some MockConfig.provider_false_file) in
  exists cfg, @getConfig E None = inr cfg.
Proof.
  cbv zeta.
  apply (proj2 (@getConfig_succeeds_iff
                  (MockConfig.env (Some MockConfig.provider_false_file)) None)).
  exists MockConfig.provider_false_file.
  split; [reflexivity|]. split; [reflexivity|].
  split; [exists "true"; reflexivity|]. left. reflexivity.
Defined.

Lemma getConfig_api_key_first_witness :
  let E := MockConfig.env (Some MockConfig.key_false_file) in
  @getConfig E None
  = inl (KnownError "Please set your API key via `ai config set API_KEY=<your token>`").
Proof.
  cbv zeta.
  exact (@getConfig_api_key_first
           (MockConfig.env (Some MockConfig.key_false_file))
           None MockConfig.key_false_file eq_refl eq_refl).
Defined.

Lemma getConfig_cli_precedence_witness :
  let E := MockConfig.env (Some MockConfig.local_file) in
  exists cfg,
    @getConfig E (Some [("MODEL", JStr EmptyString)]) = inr cfg
    /\ valid_MODEL cfg = JStr "gpt-4o-mini".
Proof.
  cbv zeta. eexists. split; [reflexivity|].
  destruct (@getConfig_cli_precedence (MockConfig.env (Some MockConfig.local_file))
              [("MODEL", JStr EmptyString)] _ eq_refl)
    as (_ & _ & Hmodel & _).
  exact (Hmodel EmptyString eq_refl).
Defined.

Lemma accepts_pair_iff_witness :
  @accepts_pair (MockConfig.env None) ("PROVIDER", "local") = true.
Proof.
  apply (proj2 (@accepts_pair_iff (MockConfig.env None) "PROVIDER" "local")).
  exists ConfigKeys.PROVIDER. split; [reflexivity|].
  split; [discriminate | auto].
Defined.


Lemma setConfigs_written_witness :
  let E := MockConfig.env (Some MockConfig.local_file) in
  exists config,
    snd (@setConfigs E [("MODEL", "codellama"); ("SILENT_MODE", "TRUE")])
    = [@ini_stringify E config]
    /\ lookup_field "MODEL" config = Some (JStr "codellama")
    /\ lookup_field "SILENT_MODE" config = Some (JBool true)
    /\ lookup_field "PROVIDER" config = Some (JStr "local").
Proof.
  cbv zeta.
  destruct (@setConfigs_written (MockConfig.env (Some MockConfig.local_file))
              [("MODEL", "codellama"); ("SILENT_MODE", "TRUE")]
              MockConfig.local_file _ eq_refl eq_refl)
    as (config & Et & _ & Hk & _).
  exists config. split; [rewrite <- Et; reflexivity|].
  split; [|split].
  - destruct (Hk ConfigKeys.MODEL) as [Hset _].
    destruct (Hset "codellama" eq_refl) as (parsed & Ep & Eg).
    cbn [ConfigKeys.name] in Eg. rewrite Eg. f_equal. injection Ep as <-. reflexivity.
  - destruct (Hk ConfigKeys.SILENT_MODE) as [Hset _].
    destruct (Hset "TRUE" eq_refl) as (parsed & Ep & Eg).
    cbn [ConfigKeys.name] in Eg. rewrite Eg. f_equal. injection Ep as <-. reflexivity.
  - destruct (Hk ConfigKeys.PROVIDER) as [_ Hkeep].
    exact (Hkeep eq_refl).
Defined.
